(** * EthernetCellularRK: the Ethernet / cellular arbitration state machine

    A shallow embedding of [EthernetCellular] (EthernetCellularRK.h and
    EthernetCellularRK.cpp).  The class is a singleton polled from the
    application loop; every handler reads its collaborators (Ethernet,
    CellularOrWiFi, Particle, System, millis) and issues commands to them.

    - The member variables are the record [Controller].
    - What the collaborators answer during one [loop()] call is the record
      [Env]; every handler reads each collaborator at most once per call.
    - What the handlers do to the collaborators is a trace of [Event]s, in
      program order.
    - Handlers are written in a small state-and-trace monad [M]. *)

From Stdlib Require Import ZArith List String Bool Lia.
Import ListNotations.
Local Open Scope string_scope.
Local Open Scope list_scope.
Local Open Scope Z_scope.

(** ** Machine integers

    The target is a 32-bit Device OS platform: [unsigned], [unsigned long],
    [uint32_t] and the value of [millis()] are 32 bits wide, [int] is 32
    bits, and the
    representation of [std::chrono::seconds] and [std::chrono::milliseconds]
    is a signed 64-bit integer. *)

Definition uint32 (x : Z) : Z := x mod 2 ^ 32.

(** [(int) x] for a wider signed [x]: reduction modulo 2^32 into the signed
    range, as the compiler of the platform does. *)
Definition int32 (x : Z) : Z := (x + 2 ^ 31) mod 2 ^ 32 - 2 ^ 31.

Definition INT_MIN : Z := - 2 ^ 31.
Definition INT_MAX : Z := 2 ^ 31 - 1.

(** Chrono literals, as counts of the unit of the member they initialise. *)
Definition seconds_of_min (n : Z) : Z := n * 60.
Definition milliseconds_of_s (n : Z) : Z := n * 1000.
Definition milliseconds_of_min (n : Z) : Z := milliseconds_of_s (seconds_of_min n).

(** Colour constants of Device OS, of the form 0x00RRGGBB. *)
Definition RGB_COLOR_CYAN : Z := 0x00FFFF.
Definition RGB_COLOR_YELLOW : Z := 0xFFFF00.

(** ** Data *)

Inductive ActiveInterface : Type :=
| NONE
| ETHERNET
| CELLULAR.

Definition ActiveInterface_eqb (a b : ActiveInterface) : bool :=
  match a, b with
  | NONE, NONE | ETHERNET, ETHERNET | CELLULAR, CELLULAR => true
  | _, _ => false
  end.

(** The values [stateHandler] is ever assigned: [ptr_f] stands for
    [&EthernetCellular::f]. *)
Inductive StateHandler : Type :=
| ptr_stateStart
| ptr_stateTryEthernet
| ptr_stateWaitEthernetReady
| ptr_stateWaitEthernetCloud
| ptr_stateEthernetCloudConnected
| ptr_stateTryCellular
| ptr_stateWaitCellularReady
| ptr_stateWaitCellularCloud
| ptr_stateCellularCloudConnected
| ptr_stateCellularWaitDisconnectedThenTryEthernet.

(** A registered [std::function] callback is opaque to the library; it is
    identified by a tag and its invocation is recorded in the trace. *)
Definition Callback : Type := nat.

Inductive LEDSignal : Type :=
| LED_SIGNAL_CLOUD_CONNECTING
| LED_SIGNAL_CLOUD_HANDSHAKE
| LED_SIGNAL_CLOUD_CONNECTED.

(** A local [LEDSystemTheme] object: the colours set on it, in call order. *)
Definition LEDSystemTheme : Type := list (LEDSignal * Z).

Definition setColor (signal : LEDSignal) (color : Z) (theme : LEDSystemTheme)
  : LEDSystemTheme := theme ++ [(signal, color)].

(** Calls made on the collaborators. *)
Inductive Event : Type :=
| Log_info (fmt : string) (args : list Z)
| System_enableFeature_ETHERNET_DETECTION
| LEDSystemTheme_restoreDefault
| LEDSystemTheme_apply (theme : LEDSystemTheme)
| CellularOrWiFi_disconnect
| CellularOrWiFi_connect
| Ethernet_connect
| Ethernet_disconnect
| Particle_connect
| Particle_disconnect
| Particle_keepAlive (sec : Z)   (* the value the callee receives *)
| InterfaceChangeCallback (cb : Callback) (oldInterface newInterface : ActiveInterface).

(** Answers of the collaborators during one [loop()] call.  [uptime] is the
    true number of milliseconds since boot; [millis()] is its low 32 bits. *)
Record Env : Type := mkEnv {
  System_featureEnabled_ETHERNET_DETECTION : bool;
  Ethernet_macAddress : option (list Z);   (* [None]: the call returns 0 *)
  Ethernet_ready : bool;
  CellularOrWiFi_ready : bool;
  Particle_connected : bool;
  Particle_disconnected : bool;
  uptime : Z
}.

Definition millis (e : Env) : Z := uint32 (uptime e).

(** The member variables of [EthernetCellular]. *)
Record Controller : Type := mkController {
  stateHandler : StateHandler;
  ethernetPresent : bool;
  stateTime : Z;
  ethernetKeepAlive : Z;
  cellularKeepAlive : Z;
  retryEthernetPeriod : Z;
  cellularConnectTimeout : Z;
  cellularCloudConnectTimeout : Z;
  ethernetConnectTimeout : Z;
  ethernetCloudConnectTimeout : Z;
  cellularBackupColor : Z;
  activeInterface : ActiveInterface;
  interfaceChangeCallback : option Callback
}.

(** The default member initialisers of the header. *)
Definition initial : Controller := {|
  stateHandler := ptr_stateStart;
  ethernetPresent := false;
  stateTime := 0;
  ethernetKeepAlive := 25;
  cellularKeepAlive := seconds_of_min 23;
  retryEthernetPeriod := milliseconds_of_min 5;
  cellularConnectTimeout := milliseconds_of_min 5;
  cellularCloudConnectTimeout := milliseconds_of_min 2;
  ethernetConnectTimeout := milliseconds_of_s 30;
  ethernetCloudConnectTimeout := milliseconds_of_s 30;
  cellularBackupColor := RGB_COLOR_YELLOW;
  activeInterface := NONE;
  interfaceChangeCallback := None
|}.

(** Assignments to one member. *)
Definition set_stateHandler (v : StateHandler) (c : Controller) : Controller :=
  mkController v (ethernetPresent c) (stateTime c) (ethernetKeepAlive c)
    (cellularKeepAlive c) (retryEthernetPeriod c) (cellularConnectTimeout c)
    (cellularCloudConnectTimeout c) (ethernetConnectTimeout c)
    (ethernetCloudConnectTimeout c) (cellularBackupColor c) (activeInterface c)
    (interfaceChangeCallback c).

Definition set_ethernetPresent (v : bool) (c : Controller) : Controller :=
  mkController (stateHandler c) v (stateTime c) (ethernetKeepAlive c)
    (cellularKeepAlive c) (retryEthernetPeriod c) (cellularConnectTimeout c)
    (cellularCloudConnectTimeout c) (ethernetConnectTimeout c)
    (ethernetCloudConnectTimeout c) (cellularBackupColor c) (activeInterface c)
    (interfaceChangeCallback c).

Definition set_stateTime (v : Z) (c : Controller) : Controller :=
  mkController (stateHandler c) (ethernetPresent c) v (ethernetKeepAlive c)
    (cellularKeepAlive c) (retryEthernetPeriod c) (cellularConnectTimeout c)
    (cellularCloudConnectTimeout c) (ethernetConnectTimeout c)
    (ethernetCloudConnectTimeout c) (cellularBackupColor c) (activeInterface c)
    (interfaceChangeCallback c).

Definition set_ethernetKeepAlive (v : Z) (c : Controller) : Controller :=
  mkController (stateHandler c) (ethernetPresent c) (stateTime c) v
    (cellularKeepAlive c) (retryEthernetPeriod c) (cellularConnectTimeout c)
    (cellularCloudConnectTimeout c) (ethernetConnectTimeout c)
    (ethernetCloudConnectTimeout c) (cellularBackupColor c) (activeInterface c)
    (interfaceChangeCallback c).

Definition set_cellularKeepAlive (v : Z) (c : Controller) : Controller :=
  mkController (stateHandler c) (ethernetPresent c) (stateTime c)
    (ethernetKeepAlive c) v (retryEthernetPeriod c) (cellularConnectTimeout c)
    (cellularCloudConnectTimeout c) (ethernetConnectTimeout c)
    (ethernetCloudConnectTimeout c) (cellularBackupColor c) (activeInterface c)
    (interfaceChangeCallback c).

Definition set_retryEthernetPeriod (v : Z) (c : Controller) : Controller :=
  mkController (stateHandler c) (ethernetPresent c) (stateTime c)
    (ethernetKeepAlive c) (cellularKeepAlive c) v (cellularConnectTimeout c)
    (cellularCloudConnectTimeout c) (ethernetConnectTimeout c)
    (ethernetCloudConnectTimeout c) (cellularBackupColor c) (activeInterface c)
    (interfaceChangeCallback c).

Definition set_cellularConnectTimeout (v : Z) (c : Controller) : Controller :=
  mkController (stateHandler c) (ethernetPresent c) (stateTime c)
    (ethernetKeepAlive c) (cellularKeepAlive c) (retryEthernetPeriod c) v
    (cellularCloudConnectTimeout c) (ethernetConnectTimeout c)
    (ethernetCloudConnectTimeout c) (cellularBackupColor c) (activeInterface c)
    (interfaceChangeCallback c).

Definition set_cellularCloudConnectTimeout (v : Z) (c : Controller) : Controller :=
  mkController (stateHandler c) (ethernetPresent c) (stateTime c)
    (ethernetKeepAlive c) (cellularKeepAlive c) (retryEthernetPeriod c)
    (cellularConnectTimeout c) v (ethernetConnectTimeout c)
    (ethernetCloudConnectTimeout c) (cellularBackupColor c) (activeInterface c)
    (interfaceChangeCallback c).

Definition set_ethernetConnectTimeout (v : Z) (c : Controller) : Controller :=
  mkController (stateHandler c) (ethernetPresent c) (stateTime c)
    (ethernetKeepAlive c) (cellularKeepAlive c) (retryEthernetPeriod c)
    (cellularConnectTimeout c) (cellularCloudConnectTimeout c) v
    (ethernetCloudConnectTimeout c) (cellularBackupColor c) (activeInterface c)
    (interfaceChangeCallback c).

Definition set_ethernetCloudConnectTimeout (v : Z) (c : Controller) : Controller :=
  mkController (stateHandler c) (ethernetPresent c) (stateTime c)
    (ethernetKeepAlive c) (cellularKeepAlive c) (retryEthernetPeriod c)
    (cellularConnectTimeout c) (cellularCloudConnectTimeout c)
    (ethernetConnectTimeout c) v (cellularBackupColor c) (activeInterface c)
    (interfaceChangeCallback c).

Definition set_cellularBackupColor (v : Z) (c : Controller) : Controller :=
  mkController (stateHandler c) (ethernetPresent c) (stateTime c)
    (ethernetKeepAlive c) (cellularKeepAlive c) (retryEthernetPeriod c)
    (cellularConnectTimeout c) (cellularCloudConnectTimeout c)
    (ethernetConnectTimeout c) (ethernetCloudConnectTimeout c) v
    (activeInterface c) (interfaceChangeCallback c).

Definition set_activeInterface (v : ActiveInterface) (c : Controller) : Controller :=
  mkController (stateHandler c) (ethernetPresent c) (stateTime c)
    (ethernetKeepAlive c) (cellularKeepAlive c) (retryEthernetPeriod c)
    (cellularConnectTimeout c) (cellularCloudConnectTimeout c)
    (ethernetConnectTimeout c) (ethernetCloudConnectTimeout c)
    (cellularBackupColor c) v (interfaceChangeCallback c).

Definition set_interfaceChangeCallback (v : option Callback) (c : Controller)
  : Controller :=
  mkController (stateHandler c) (ethernetPresent c) (stateTime c)
    (ethernetKeepAlive c) (cellularKeepAlive c) (retryEthernetPeriod c)
    (cellularConnectTimeout c) (cellularCloudConnectTimeout c)
    (ethernetConnectTimeout c) (ethernetCloudConnectTimeout c)
    (cellularBackupColor c) (activeInterface c) v.

(** ** The monad of member functions

    A member function reads and writes the members and calls collaborators: it
    maps the controller to a result, the updated controller and the calls
    made, in order. *)

Definition M (A : Type) : Type := Controller -> A * Controller * list Event.

Definition ret {A : Type} (a : A) : M A := fun c => (a, c, []).

Definition bind {A B : Type} (m : M A) (k : A -> M B) : M B :=
  fun c =>
    let '(a, c1, evs1) := m c in
    let '(b, c2, evs2) := k a c1 in
    (b, c2, evs1 ++ evs2).

Declare Scope member_scope.
Delimit Scope member_scope with member.
Notation "x <- m ;; k" := (bind m (fun x => k))
  (at level 61, m at next level, right associativity) : member_scope.
Notation "m ;; k" := (bind m (fun _ => k))
  (at level 61, right associativity) : member_scope.
Local Open Scope member_scope.

Definition get {A : Type} (field : Controller -> A) : M A :=
  fun c => (field c, c, []).

Definition assign (set : Controller -> Controller) : M unit :=
  fun c => (tt, set c, []).

Definition emit (ev : Event) : M unit := fun c => (tt, c, [ev]).

Definition skip : M unit := ret tt.

(** The controller after, and the calls made by, a member function. *)
Definition exec {A : Type} (m : M A) (c : Controller) : Controller := snd (fst (m c)).
Definition trace {A : Type} (m : M A) (c : Controller) : list Event := snd (m c).

(** ** Elapsed time

    [millis() - stateTime] is a subtraction of two 32-bit unsigned values.
    In [millis() - stateTime >= timeout.count()] the difference is converted
    to the 64-bit signed type of [count()], which keeps its value, so the
    comparison is the one of the integers. *)

Definition elapsed (now stateTime : Z) : Z := uint32 (now - stateTime).

Definition timedOut (now stateTime timeout : Z) : bool :=
  timeout <=? elapsed now stateTime.

(** ** EthernetCellularRK.cpp *)

Definition setActiveInterface (newActiveInterface : ActiveInterface) : M unit :=
  oldActiveInterface <- get activeInterface ;;
  assign (set_activeInterface newActiveInterface) ;;
  if negb (ActiveInterface_eqb oldActiveInterface newActiveInterface) then
    callback <- get interfaceChangeCallback ;;
    match callback with
    | Some cb => emit (InterfaceChangeCallback cb oldActiveInterface newActiveInterface)
    | None => skip
    end
  else skip.

Definition stateStart (e : Env) : M unit :=
  (if negb (System_featureEnabled_ETHERNET_DETECTION e) then
     emit (Log_info "FEATURE_ETHERNET_DETECTION enabled (was disabled before)" []) ;;
     emit System_enableFeature_ETHERNET_DETECTION
   else skip) ;;
  match Ethernet_macAddress e with
  | Some _ =>
      emit (Log_info "Ethernet adapter present" []) ;;
      assign (set_ethernetPresent true)
  | None =>
      emit (Log_info "No Ethernet adapter" [])
  end ;;
  present <- get ethernetPresent ;;
  if present then assign (set_stateHandler ptr_stateTryEthernet)
  else assign (set_stateHandler ptr_stateTryCellular).

Definition stateTryEthernet (e : Env) : M unit :=
  emit (Log_info "Trying to connect by Ethernet" []) ;;
  emit LEDSystemTheme_restoreDefault ;;
  setActiveInterface NONE ;;
  assign (set_stateTime (millis e)) ;;
  emit CellularOrWiFi_disconnect ;;
  emit Ethernet_connect ;;
  assign (set_stateHandler ptr_stateWaitEthernetReady).

Definition stateWaitEthernetReady (e : Env) : M unit :=
  if Ethernet_ready e then
    emit Particle_connect ;;
    assign (set_stateHandler ptr_stateWaitEthernetCloud)
  else
    stateTime' <- get stateTime ;;
    timeout <- get ethernetConnectTimeout ;;
    if timedOut (millis e) stateTime' timeout then
      emit (Log_info "Timed out connecting to Ethernet, reverting to Cellular" []) ;;
      assign (set_stateHandler ptr_stateTryCellular)
    else skip.

(** [Particle.keepAlive] takes an [unsigned]: the 64-bit count of the
    keep-alive is converted to it, modulo 2^32, at the call. *)
Definition stateWaitEthernetCloud (e : Env) : M unit :=
  if Particle_connected e then
    keepAlive <- get ethernetKeepAlive ;;
    emit (Log_info "Cloud connected over Ethernet keepAlive=%d" [int32 keepAlive]) ;;
    setActiveInterface ETHERNET ;;
    emit (Particle_keepAlive (uint32 keepAlive)) ;;
    assign (set_stateTime (millis e)) ;;
    assign (set_stateHandler ptr_stateEthernetCloudConnected)
  else
    stateTime' <- get stateTime ;;
    timeout <- get ethernetCloudConnectTimeout ;;
    if timedOut (millis e) stateTime' timeout then
      emit (Log_info "Took too long to connect to the cloud by Ethernet, switching to cellular" []) ;;
      emit Particle_disconnect ;;
      emit Ethernet_disconnect ;;
      assign (set_stateHandler ptr_stateTryCellular)
    else skip.

Definition stateEthernetCloudConnected (e : Env) : M unit :=
  if negb (Particle_connected e) then
    emit (Log_info "Disconnected from the cloud while on Ethernet, waiting for reconnect" []) ;;
    assign (set_stateHandler ptr_stateWaitEthernetCloud) ;;
    assign (set_stateTime (millis e))
  else skip.

Definition stateTryCellular (e : Env) : M unit :=
  emit (Log_info "Trying to connect by cellular" []) ;;
  setActiveInterface NONE ;;
  color <- get cellularBackupColor ;;
  (if negb (color =? RGB_COLOR_CYAN) then
     let theme := [] in
     let theme := setColor LED_SIGNAL_CLOUD_CONNECTING color theme in
     let theme := setColor LED_SIGNAL_CLOUD_HANDSHAKE color theme in
     let theme := setColor LED_SIGNAL_CLOUD_CONNECTED color theme in
     emit (LEDSystemTheme_apply theme)
   else emit LEDSystemTheme_restoreDefault) ;;
  assign (set_stateTime (millis e)) ;;
  emit Ethernet_disconnect ;;
  emit CellularOrWiFi_connect ;;
  assign (set_stateHandler ptr_stateWaitCellularReady).

Definition stateWaitCellularReady (e : Env) : M unit :=
  if CellularOrWiFi_ready e then
    emit Particle_connect ;;
    assign (set_stateHandler ptr_stateWaitCellularCloud)
  else
    stateTime' <- get stateTime ;;
    timeout <- get cellularConnectTimeout ;;
    if timedOut (millis e) stateTime' timeout then
      present <- get ethernetPresent ;;
      if present then assign (set_stateHandler ptr_stateTryEthernet)
      else skip
    else skip.

Definition stateWaitCellularCloud (e : Env) : M unit :=
  if Particle_connected e then
    keepAlive <- get cellularKeepAlive ;;
    emit (Log_info "Cloud connected over cellular keepAlive=%d" [int32 keepAlive]) ;;
    emit (Particle_keepAlive (uint32 keepAlive)) ;;
    setActiveInterface CELLULAR ;;
    assign (set_stateTime (millis e)) ;;
    assign (set_stateHandler ptr_stateCellularCloudConnected)
  else
    stateTime' <- get stateTime ;;
    timeout <- get cellularCloudConnectTimeout ;;
    if timedOut (millis e) stateTime' timeout then
      present <- get ethernetPresent ;;
      if present then
        emit (Log_info "Took too long to connect to the cloud by Cellular, trying Ethernet again" []) ;;
        emit Particle_disconnect ;;
        assign (set_stateHandler ptr_stateTryEthernet)
      else skip
    else skip.

Definition stateCellularCloudConnected (e : Env) : M unit :=
  if negb (Particle_connected e) then
    emit (Log_info "Disconnected from the cloud while on Cellular" []) ;;
    assign (set_stateHandler ptr_stateWaitCellularCloud) ;;
    assign (set_stateTime (millis e))
  else
    stateTime' <- get stateTime ;;
    period <- get retryEthernetPeriod ;;
    if timedOut (millis e) stateTime' period then
      present <- get ethernetPresent ;;
      if present then
        emit (Log_info "Trying Ethernet again" []) ;;
        emit Particle_disconnect ;;
        setActiveInterface NONE ;;
        assign (set_stateHandler ptr_stateCellularWaitDisconnectedThenTryEthernet)
      else skip
    else skip.

Definition stateCellularWaitDisconnectedThenTryEthernet (e : Env) : M unit :=
  if Particle_disconnected e then
    assign (set_stateHandler ptr_stateTryEthernet)
  else skip.

(** The member function a [stateHandler] value refers to. *)
Definition handler (h : StateHandler) : Env -> M unit :=
  match h with
  | ptr_stateStart => stateStart
  | ptr_stateTryEthernet => stateTryEthernet
  | ptr_stateWaitEthernetReady => stateWaitEthernetReady
  | ptr_stateWaitEthernetCloud => stateWaitEthernetCloud
  | ptr_stateEthernetCloudConnected => stateEthernetCloudConnected
  | ptr_stateTryCellular => stateTryCellular
  | ptr_stateWaitCellularReady => stateWaitCellularReady
  | ptr_stateWaitCellularCloud => stateWaitCellularCloud
  | ptr_stateCellularCloudConnected => stateCellularCloudConnected
  | ptr_stateCellularWaitDisconnectedThenTryEthernet =>
      stateCellularWaitDisconnectedThenTryEthernet
  end.

Definition setup : M unit := skip.

(** [loop()] invokes the member function [stateHandler] refers to, on this
    object. *)
Definition loop (e : Env) : M unit :=
  h <- get stateHandler ;;
  handler h e.

(** ** EthernetCellularRK.h: configuration

    A setter assigns its member and returns [*this], the object it was called
    on: here, the controller after the assignment. *)

Definition withEthernetKeepAlive (value : Z) (c : Controller) : Controller :=
  set_ethernetKeepAlive value c.
Definition getEthernetKeepAlive (c : Controller) : Z := int32 (ethernetKeepAlive c).

Definition withCellularKeepAlive (value : Z) (c : Controller) : Controller :=
  set_cellularKeepAlive value c.
Definition getCellularKeepAlive (c : Controller) : Z := int32 (cellularKeepAlive c).

Definition withRetryEthernetPeriod (value : Z) (c : Controller) : Controller :=
  set_retryEthernetPeriod value c.
Definition getRetryEthernetPeriod (c : Controller) : Z := int32 (retryEthernetPeriod c).

Definition withCellularConnectTimeout (value : Z) (c : Controller) : Controller :=
  set_cellularConnectTimeout value c.
Definition getCellularConnectTimeout (c : Controller) : Z :=
  int32 (cellularConnectTimeout c).

Definition withCellularCloudConnectTimeout (value : Z) (c : Controller) : Controller :=
  set_cellularCloudConnectTimeout value c.
Definition getCellularCloudConnectTimeout (c : Controller) : Z :=
  int32 (cellularCloudConnectTimeout c).

Definition withEthernetConnectTimeout (value : Z) (c : Controller) : Controller :=
  set_ethernetConnectTimeout value c.
Definition getEthernetConnectTimeout (c : Controller) : Z :=
  int32 (ethernetConnectTimeout c).

Definition withEthernetCloudConnectTimeout (value : Z) (c : Controller) : Controller :=
  set_ethernetCloudConnectTimeout value c.
Definition getEthernetCloudConnectTimeout (c : Controller) : Z :=
  int32 (ethernetCloudConnectTimeout c).

Definition withCellularBackupColor (value : Z) (c : Controller) : Controller :=
  set_cellularBackupColor value c.
Definition getCellularBackupColor (c : Controller) : Z := cellularBackupColor c.

Definition getActiveInterface (c : Controller) : ActiveInterface := activeInterface c.

Definition withInterfaceChangeCallback (callback : option Callback) (c : Controller)
  : Controller := set_interfaceChangeCallback callback c.

(** ** Executions

    What the application can do with the singleton: the public member
    functions, called one after the other from a single thread. *)

Inductive Call : Type :=
| Call_setup
| Call_loop (e : Env)
| Call_withEthernetKeepAlive (value : Z)
| Call_withCellularKeepAlive (value : Z)
| Call_withRetryEthernetPeriod (value : Z)
| Call_withCellularConnectTimeout (value : Z)
| Call_withCellularCloudConnectTimeout (value : Z)
| Call_withEthernetConnectTimeout (value : Z)
| Call_withEthernetCloudConnectTimeout (value : Z)
| Call_withCellularBackupColor (value : Z)
| Call_withInterfaceChangeCallback (callback : option Callback).

Definition call (k : Call) : M unit :=
  match k with
  | Call_setup => setup
  | Call_loop e => loop e
  | Call_withEthernetKeepAlive v => assign (withEthernetKeepAlive v)
  | Call_withCellularKeepAlive v => assign (withCellularKeepAlive v)
  | Call_withRetryEthernetPeriod v => assign (withRetryEthernetPeriod v)
  | Call_withCellularConnectTimeout v => assign (withCellularConnectTimeout v)
  | Call_withCellularCloudConnectTimeout v => assign (withCellularCloudConnectTimeout v)
  | Call_withEthernetConnectTimeout v => assign (withEthernetConnectTimeout v)
  | Call_withEthernetCloudConnectTimeout v => assign (withEthernetCloudConnectTimeout v)
  | Call_withCellularBackupColor v => assign (withCellularBackupColor v)
  | Call_withInterfaceChangeCallback cb => assign (withInterfaceChangeCallback cb)
  end.

Fixpoint run (ks : list Call) : M unit :=
  match ks with
  | [] => skip
  | k :: ks' => call k ;; run ks'
  end.

(** The callback invocations of a trace, in order. *)
Definition callbacks (evs : list Event)
  : list (Callback * ActiveInterface * ActiveInterface) :=
  flat_map (fun ev =>
    match ev with
    | InterfaceChangeCallback cb o n => [(cb, o, n)]
    | _ => []
    end) evs.

(** The invocations [setActiveInterface] makes when the controller [c] goes
    to interface [n]. *)
Definition notifications (c : Controller) (n : ActiveInterface) : list Event :=
  match interfaceChangeCallback c with
  | Some cb =>
      if ActiveInterface_eqb (activeInterface c) n then []
      else [InterfaceChangeCallback cb (activeInterface c) n]
  | None => []
  end.

(** Is the event a connect, disconnect or keep-alive call on a collaborator? *)
Definition is_link_command (ev : Event) : bool :=
  match ev with
  | CellularOrWiFi_disconnect | CellularOrWiFi_connect
  | Ethernet_connect | Ethernet_disconnect
  | Particle_connect | Particle_disconnect | Particle_keepAlive _ => true
  | _ => false
  end.

(** Environments used in examples: the answers at uptime [t]. *)
Definition env (mac : bool) (ethReady cellReady connected : bool) (t : Z) : Env :=
  mkEnv true (if mac then Some [0xDE; 0xAD; 0xBE; 0xEF; 0x00; 0x01] else None)
        ethReady cellReady connected (negb connected) t.

(** ** Vocabulary of the statements, and executions used as examples *)

(** A configuration member with its setter and its getter. *)
Record Field : Type := mkField {
  setter : Z -> Controller -> Controller;
  member : Controller -> Z;
  getter : Controller -> Z
}.

Definition fields : list Field :=
  [ mkField withEthernetKeepAlive ethernetKeepAlive getEthernetKeepAlive;
    mkField withCellularKeepAlive cellularKeepAlive getCellularKeepAlive;
    mkField withRetryEthernetPeriod retryEthernetPeriod getRetryEthernetPeriod;
    mkField withCellularConnectTimeout cellularConnectTimeout getCellularConnectTimeout;
    mkField withCellularCloudConnectTimeout cellularCloudConnectTimeout
            getCellularCloudConnectTimeout;
    mkField withEthernetConnectTimeout ethernetConnectTimeout getEthernetConnectTimeout;
    mkField withEthernetCloudConnectTimeout ethernetCloudConnectTimeout
            getEthernetCloudConnectTimeout;
    mkField withCellularBackupColor cellularBackupColor getCellularBackupColor ].

(** The members that are not configuration values. *)
Definition machine (c : Controller)
  : StateHandler * bool * Z * ActiveInterface * option Callback :=
  (stateHandler c, ethernetPresent c, stateTime c, activeInterface c,
   interfaceChangeCallback c).

(** The member functions [stateHandler] is assigned in the source. *)
Definition all_handlers : list StateHandler :=
  [ ptr_stateStart; ptr_stateTryEthernet; ptr_stateWaitEthernetReady;
    ptr_stateWaitEthernetCloud; ptr_stateEthernetCloudConnected;
    ptr_stateTryCellular; ptr_stateWaitCellularReady; ptr_stateWaitCellularCloud;
    ptr_stateCellularCloudConnected;
    ptr_stateCellularWaitDisconnectedThenTryEthernet ].

(** The values of [activeInterface] that occur with each state. *)
Definition interface_allowed (h : StateHandler) (a : ActiveInterface) : bool :=
  match h, a with
  | ptr_stateEthernetCloudConnected, a => ActiveInterface_eqb a ETHERNET
  | ptr_stateCellularCloudConnected, a => ActiveInterface_eqb a CELLULAR
  | _, NONE => true
  | (ptr_stateWaitEthernetCloud | ptr_stateTryCellular), ETHERNET => true
  | (ptr_stateWaitCellularCloud | ptr_stateTryEthernet), CELLULAR => true
  | _, _ => false
  end.

(** The states visited when no Ethernet hardware was found. *)
Definition cellular_only (c : Controller) : Prop :=
  ethernetPresent c = false
  /\ In (stateHandler c)
        [ptr_stateTryCellular; ptr_stateWaitCellularReady; ptr_stateWaitCellularCloud;
         ptr_stateCellularCloudConnected].

(** The theme [stateTryCellular] applies for a backup colour. *)
Definition backup_theme (color : Z) : LEDSystemTheme :=
  [(LED_SIGNAL_CLOUD_CONNECTING, color); (LED_SIGNAL_CLOUD_HANDSHAKE, color);
   (LED_SIGNAL_CLOUD_CONNECTED, color)].

(** Controllers in the two waiting states of Ethernet, [stateTime] recorded by
    [stateTryEthernet] at uptime 1000 ms. *)
Definition waiting_ethernet_ready : Controller :=
  set_stateTime 1000 (set_ethernetPresent true
    (set_stateHandler ptr_stateWaitEthernetReady initial)).

Definition waiting_ethernet_cloud : Controller :=
  set_stateTime 1000 (set_ethernetPresent true
    (set_stateHandler ptr_stateWaitEthernetCloud
       (withInterfaceChangeCallback (Some 1%nat) initial))).

(** Controllers in the two connected states since uptime 5000 ms, with
    Ethernet hardware present and a callback registered. *)
Definition on_ethernet : Controller :=
  set_activeInterface ETHERNET (set_stateTime 5000 (set_ethernetPresent true
    (set_stateHandler ptr_stateEthernetCloudConnected
       (withInterfaceChangeCallback (Some 1%nat) initial)))).

Definition on_cellular : Controller :=
  set_activeInterface CELLULAR (set_stateTime 5000 (set_ethernetPresent true
    (set_stateHandler ptr_stateCellularCloudConnected
       (withInterfaceChangeCallback (Some 1%nat) initial)))).

(** An execution that visits every state: boot with Ethernet, connect over
    it, lose the cloud, time out, fall back to cellular, stay there for the
    retry period, and go back to trying Ethernet. *)
Definition tour : list Call :=
  map Call_loop
    [ env true false false false 0;        (* stateStart *)
      env true false false false 10;       (* stateTryEthernet *)
      env true true false false 2000;      (* stateWaitEthernetReady *)
      env true true false true 3000;       (* stateWaitEthernetCloud *)
      env true true false false 60000;     (* stateEthernetCloudConnected *)
      env true true false false 90000;     (* stateWaitEthernetCloud, timed out *)
      env true false false false 90010;    (* stateTryCellular *)
      env true false true false 95000;     (* stateWaitCellularReady *)
      env true false true true 99000;      (* stateWaitCellularCloud *)
      env true false true true 399000;     (* stateCellularCloudConnected *)
      env true false true false 400000 ].  (* stateCellularWaitDisconnected... *)

(** The states an execution goes through, the first one included. *)
Definition visited (ks : list Call) (c : Controller) : list StateHandler :=
  map (fun n => stateHandler (exec (run (firstn n ks)) c)) (seq 0 (S (List.length ks))).



(** Boot without Ethernet hardware and start the cellular connection; then
    the cellular link gets ready. *)
Definition cellular_boot : list Call :=
  map Call_loop [ env false false false false 10 ].        (* stateTryCellular *)

Definition cellular_boot_ready : list Call :=
  cellular_boot ++ map Call_loop [ env false false true false 5000 ].

(** ** The singleton

    [_instance] is a static pointer, null at boot; [None] is the null
    pointer and [Some c] points to the object with members [c]. *)

Definition Static : Type := option Controller.

(** [instance()]: allocates a default-constructed object when the pointer is
    null, and returns the object the pointer refers to. *)
Definition instance (s : Static) : Controller * Static :=
  match s with
  | Some c => (c, Some c)
  | None => (initial, Some initial)
  end.

(** [EthernetCellular::instance().f(...)]: the member function runs on the
    object [instance()] returns, in place. *)
Definition on_instance {A : Type} (m : M A) (s : Static) : A * Static * list Event :=
  let '(c, _) := instance s in
  let '(a, c', evs) := m c in
  (a, Some c', evs).

(** An application making a sequence of calls, each through [instance()]. *)
Fixpoint application (ks : list Call) (s : Static) : Static * list Event :=
  match ks with
  | [] => (s, [])
  | k :: ks' =>
      let '(_, s1, evs1) := on_instance (call k) s in
      let '(s2, evs2) := application ks' s1 in
      (s2, evs1 ++ evs2)
  end.

(** ** More vocabulary *)

(** The links the controller has asked to be up: Ethernet, cellular. *)
Definition Links : Type := (bool * bool)%type.

Definition link_step (l : Links) (ev : Event) : Links :=
  match ev with
  | Ethernet_connect => (true, snd l)
  | Ethernet_disconnect => (false, snd l)
  | CellularOrWiFi_connect => (fst l, true)
  | CellularOrWiFi_disconnect => (fst l, false)
  | _ => l
  end.

Definition both_up (l : Links) : bool := fst l && snd l.

(** At no point of the trace, started with links [l], are both links asked
    to be up. *)
Fixpoint exclusive (l : Links) (evs : list Event) : bool :=
  match evs with
  | [] => negb (both_up l)
  | ev :: evs' => negb (both_up l) && exclusive (link_step l ev) evs'
  end.

(** Calls that go back to Ethernet or tear the cloud session down. *)
Definition is_ethernet_retry_command (ev : Event) : bool :=
  match ev with
  | Particle_disconnect | Ethernet_connect | CellularOrWiFi_disconnect => true
  | _ => false
  end.

(** A [loop()] call during which the cloud reports connected; any other call. *)
Definition cloud_up (k : Call) : Prop :=
  match k with
  | Call_loop e => Particle_connected e = true
  | _ => True
  end.

(** A [loop()] call during which the cloud does not report disconnected. *)
Definition cloud_not_down (k : Call) : Prop :=
  match k with
  | Call_loop e => Particle_disconnected e = false
  | _ => True
  end.

(** Is the Ethernet MAC address call answered with an address? *)
Definition has_mac (e : Env) : bool :=
  match Ethernet_macAddress e with
  | Some _ => true
  | None => false
  end.

(** Controllers in the two waiting states of cellular, [stateTime] recorded by
    [stateTryCellular] at uptime 1000 ms, with Ethernet hardware present. *)
Definition waiting_cellular_ready : Controller :=
  set_stateTime 1000 (set_ethernetPresent true
    (set_stateHandler ptr_stateWaitCellularReady initial)).

Definition waiting_cellular_cloud : Controller :=
  set_stateTime 1000 (set_ethernetPresent true
    (set_stateHandler ptr_stateWaitCellularCloud
       (withInterfaceChangeCallback (Some 1%nat) initial))).

(** A controller waiting for the cloud to be torn down before it retries
    Ethernet. *)
Definition waiting_disconnect : Controller :=
  set_stateTime 5000 (set_ethernetPresent true
    (set_stateHandler ptr_stateCellularWaitDisconnectedThenTryEthernet initial)).

(** Is the event no callback invocation, or one between NONE and an
    interface? *)
Definition through_none (ev : Event) : bool :=
  match ev with
  | InterfaceChangeCallback _ NONE NONE => false
  | InterfaceChangeCallback _ NONE _ => true
  | InterfaceChangeCallback _ _ NONE => true
  | InterfaceChangeCallback _ _ _ => false
  | _ => true
  end.

(** Calls that bring a link up or down, or change the LED theme. *)
Definition is_switch_command (ev : Event) : bool :=
  match ev with
  | Ethernet_connect | CellularOrWiFi_connect | CellularOrWiFi_disconnect
  | LEDSystemTheme_restoreDefault | LEDSystemTheme_apply _ => true
  | _ => false
  end.

(** What an application that follows the callback believes the active
    interface to be: the new interface of the last invocation. *)
Definition track (a : ActiveInterface) (ev : Event) : ActiveInterface :=
  match ev with
  | InterfaceChangeCallback _ _ n => n
  | _ => a
  end.

(** A call that leaves the registered callback in place. *)
Definition keeps_callback (k : Call) : Prop :=
  match k with
  | Call_withInterfaceChangeCallback _ => False
  | _ => True
  end.

(** Boot with Ethernet: [stateTryEthernet] runs at 1 s and the link is
    ready at 30 s, when [stateWaitEthernetCloud] is entered. *)
Definition slow_link_boot : list Call :=
  map Call_loop
    [ env true false false false 0;        (* stateStart *)
      env true false false false 1000;     (* stateTryEthernet *)
      env true true false false 30000 ].   (* stateWaitEthernetReady *)

(** * Verification *)

Arguments uint32 : simpl never.
Arguments int32 : simpl never.
Arguments millis : simpl never.
Arguments elapsed : simpl never.
Arguments timedOut : simpl never.

Lemma loop_handler (e : Env) (c : Controller) :
  loop e c = handler (stateHandler c) e c.
Proof.
  unfold loop, bind, get.
  destruct (handler (stateHandler c) e c) as [[[] c'] evs]. reflexivity.
Qed.

Lemma ActiveInterface_eqb_eq (a b : ActiveInterface) :
  ActiveInterface_eqb a b = true <-> a = b.
Proof. destruct a, b; simpl; split; congruence. Qed.

Lemma ActiveInterface_eqb_refl (a : ActiveInterface) : ActiveInterface_eqb a a = true.
Proof. destruct a; reflexivity. Qed.

(** Open the handler the controller is in and split on every test it makes. *)
Ltac open_handlers :=
  cbv [handler stateStart stateTryEthernet stateWaitEthernetReady
       stateWaitEthernetCloud stateEthernetCloudConnected stateTryCellular
       stateWaitCellularReady stateWaitCellularCloud stateCellularCloudConnected
       stateCellularWaitDisconnectedThenTryEthernet setActiveInterface
       bind get assign emit skip ret exec trace setColor] in *.

Ltac split_tests :=
  repeat match goal with
  | |- context [if ?b then _ else _] => destruct b eqn:?; cbn in *
  | |- context [match ?o with Some _ => _ | None => _ end] => destruct o eqn:?; cbn in *
  end.

Ltac run_handler := open_handlers; cbn in *; split_tests; try discriminate.

(** [setActiveInterface] assigns the member and makes exactly the
    notifications of [notifications]. *)
Lemma setActiveInterface_spec (n : ActiveInterface) (c : Controller) :
  setActiveInterface n c = (tt, set_activeInterface n c, notifications c n).
Proof.
  unfold notifications. destruct c as [h p t k1 k2 r t1 t2 t3 t4 col a cb].
  destruct a, n, cb; reflexivity.
Qed.

(** C2. Every [loop()] call invokes the registered interface-change callback
    exactly once when the call changes [activeInterface], with the value
    before and the value after the call as arguments, inside that call; it
    invokes it not at all when the call leaves [activeInterface] as it was or
    when no callback is registered.  [setActiveInterface] itself makes the
    invocation at the assignment. *)
Theorem callback_once_per_change (e : Env) (c : Controller) (n : ActiveInterface) :
  setActiveInterface n c = (tt, set_activeInterface n c, notifications c n)
  /\ callbacks (notifications c n) =
       match interfaceChangeCallback c with
       | Some cb =>
           if ActiveInterface_eqb (activeInterface c) n then []
           else [(cb, activeInterface c, n)]
       | None => []
       end
  /\ callbacks (trace (loop e) c) =
       match interfaceChangeCallback c with
       | Some cb =>
           if ActiveInterface_eqb (activeInterface c) (activeInterface (exec (loop e) c))
           then []
           else [(cb, activeInterface c, activeInterface (exec (loop e) c))]
       | None => []
       end.
Proof.
  split; [apply setActiveInterface_spec|]. split.
  - unfold notifications. destruct (interfaceChangeCallback c); [|reflexivity].
    destruct (ActiveInterface_eqb (activeInterface c) n); reflexivity.
  - unfold exec, trace. rewrite loop_handler.
    destruct c as [h p t k1 k2 r t1 t2 t3 t4 col a cb].
    destruct h, a, cb; run_handler; reflexivity.
Qed.

(** ** Elapsed time across a wrap of [millis()] *)

Lemma uint32_range (x : Z) : 0 <= uint32 x < 2 ^ 32.
Proof. unfold uint32. apply Z.mod_pos_bound. reflexivity. Qed.

Lemma elapsed_uptime (entered now : Z) :
  0 <= now - entered < 2 ^ 32 ->
  elapsed (uint32 now) (uint32 entered) = now - entered.
Proof.
  intros Hlt. unfold elapsed, uint32.
  rewrite <- Zminus_mod. apply Z.mod_small. exact Hlt.
Qed.

(** C6. When [stateTime] was recorded from [millis()] at environment [e0]
    and the clock is read at a later environment [e1], less than 2^32
    milliseconds after it, the unsigned difference [millis() - stateTime] is
    the true elapsed time, also when the counter wrapped in between; so the
    test [millis() - stateTime >= timeout] decides whether the true elapsed
    time has reached the timeout, and each of the five states with a timeout
    is left on timeout exactly when the true elapsed time has reached it. *)
Theorem elapsed_wraparound_safe (e0 e1 : Env) (timeout : Z) (c : Controller) :
  0 <= uptime e1 - uptime e0 < 2 ^ 32 ->
  stateTime c = millis e0 ->
  let d := uptime e1 - uptime e0 in
  elapsed (millis e1) (stateTime c) = d
  /\ timedOut (millis e1) (stateTime c) timeout = (timeout <=? d)
  /\ (stateHandler c = ptr_stateWaitEthernetReady -> Ethernet_ready e1 = false ->
      stateHandler (exec (loop e1) c) =
        if ethernetConnectTimeout c <=? d then ptr_stateTryCellular
        else ptr_stateWaitEthernetReady)
  /\ (stateHandler c = ptr_stateWaitEthernetCloud -> Particle_connected e1 = false ->
      stateHandler (exec (loop e1) c) =
        if ethernetCloudConnectTimeout c <=? d then ptr_stateTryCellular
        else ptr_stateWaitEthernetCloud)
  /\ (stateHandler c = ptr_stateWaitCellularReady -> CellularOrWiFi_ready e1 = false ->
      stateHandler (exec (loop e1) c) =
        if (cellularConnectTimeout c <=? d) && ethernetPresent c then ptr_stateTryEthernet
        else ptr_stateWaitCellularReady)
  /\ (stateHandler c = ptr_stateWaitCellularCloud -> Particle_connected e1 = false ->
      stateHandler (exec (loop e1) c) =
        if (cellularCloudConnectTimeout c <=? d) && ethernetPresent c
        then ptr_stateTryEthernet
        else ptr_stateWaitCellularCloud)
  /\ (stateHandler c = ptr_stateCellularCloudConnected -> Particle_connected e1 = true ->
      stateHandler (exec (loop e1) c) =
        if (retryEthernetPeriod c <=? d) && ethernetPresent c
        then ptr_stateCellularWaitDisconnectedThenTryEthernet
        else ptr_stateCellularCloudConnected).
Proof.
  intros Hlt Hst d.
  assert (Hto : forall t, timedOut (millis e1) (millis e0) t = (t <=? d)).
  { intros t. unfold timedOut, millis. rewrite (elapsed_uptime _ _ Hlt). reflexivity. }
  rewrite Hst. split; [apply (elapsed_uptime _ _ Hlt)|]. split; [apply Hto|].
  unfold exec. rewrite loop_handler.
  destruct c as [h p t k1 k2 r t1 t2 t3 t4 col a cb]. cbn in Hst |- *. subst t.
  repeat split; intros -> Hr; cbn [handler];
    [unfold stateWaitEthernetReady | unfold stateWaitEthernetCloud
     | unfold stateWaitCellularReady | unfold stateWaitCellularCloud
     | unfold stateCellularCloudConnected ];
    rewrite Hr; open_handlers; cbn; rewrite Hto;
    match goal with |- context [?x <=? d] => destruct (x <=? d) end;
    destruct p, a, cb; reflexivity.
Qed.

(** A wrap: [stateTryEthernet] ran 100 ms before the counter overflowed and
    [stateWaitEthernetReady] runs 29.9 s, then 30 s, after it. *)
Lemma elapsed_wraparound_safe_witness :
  let e0 := env true false false false (2 ^ 32 - 100) in
  let e1 := env true false false false (2 ^ 32 + 29800) in
  let e2 := env true false false false (2 ^ 32 + 29900) in
  let c := set_stateTime (millis e0) waiting_ethernet_ready in
  (stateTime c = 4294967196 /\ millis e1 = 29800 /\ millis e2 = 29900)
  /\ elapsed (millis e1) (stateTime c) = 29900
  /\ stateHandler (exec (loop e1) c) = ptr_stateWaitEthernetReady
  /\ stateHandler (exec (loop e2) c) = ptr_stateTryCellular.
Proof.
  intros e0 e1 e2 c.
  assert (H1 : 0 <= uptime e1 - uptime e0 < 2 ^ 32) by (vm_compute; split; [discriminate | reflexivity]).
  assert (H2 : 0 <= uptime e2 - uptime e0 < 2 ^ 32) by (vm_compute; split; [discriminate | reflexivity]).
  destruct (elapsed_wraparound_safe e0 e1 30000 c H1 eq_refl) as [Hd1 [_ [Hs1 _]]].
  destruct (elapsed_wraparound_safe e0 e2 30000 c H2 eq_refl) as [_ [_ [Hs2 _]]].
  split; [repeat split|]. split; [exact Hd1|].
  split; [exact (Hs1 eq_refl eq_refl) | exact (Hs2 eq_refl eq_refl)].
Defined.

(** ** Single transitions *)

Lemma timedOut_true (now st timeout : Z) :
  timeout <= elapsed now st -> timedOut now st timeout = true.
Proof. intros H. unfold timedOut. apply Z.leb_le. exact H. Qed.

Lemma timedOut_false (now st timeout : Z) :
  elapsed now st < timeout -> timedOut now st timeout = false.
Proof. intros H. unfold timedOut. apply Z.leb_gt. exact H. Qed.

(** One [loop()] call in [stateWaitEthernetCloud]: when the cloud is
    connected the handler makes [activeInterface] ETHERNET (notifying the
    callback of a change), sets the keep-alive to the count of
    [ethernetKeepAlive] as an [unsigned], records [millis()] in [stateTime]
    and goes to [stateEthernetCloudConnected]; otherwise, when
    [millis() - stateTime] has reached [ethernetCloudConnectTimeout], for the
    [stateTime] that was last recorded, it disconnects the cloud and then
    Ethernet and goes to [stateTryCellular], changing nothing else;
    otherwise it changes nothing and calls nothing. *)
Theorem stateWaitEthernetCloud_step (e : Env) (c : Controller) :
  stateHandler c = ptr_stateWaitEthernetCloud ->
  (Particle_connected e = true ->
     loop e c =
       (tt,
        set_stateHandler ptr_stateEthernetCloudConnected
          (set_stateTime (millis e) (set_activeInterface ETHERNET c)),
        [Log_info "Cloud connected over Ethernet keepAlive=%d" [int32 (ethernetKeepAlive c)]]
          ++ notifications c ETHERNET
          ++ [Particle_keepAlive (uint32 (ethernetKeepAlive c))]))
  /\ (Particle_connected e = false ->
      ethernetCloudConnectTimeout c <= elapsed (millis e) (stateTime c) ->
      loop e c =
        (tt, set_stateHandler ptr_stateTryCellular c,
         [Log_info "Took too long to connect to the cloud by Ethernet, switching to cellular" [];
          Particle_disconnect; Ethernet_disconnect]))
  /\ (Particle_connected e = false ->
      elapsed (millis e) (stateTime c) < ethernetCloudConnectTimeout c ->
      loop e c = (tt, c, [])).
Proof.
  intros Hst. rewrite loop_handler, Hst.
  destruct c as [h p t k1 k2 r t1 t2 t3 t4 col a cb]. cbn in Hst. subst h.
  unfold notifications. cbn [handler]. unfold stateWaitEthernetCloud.
  repeat split; intros Hc; [|intros Hto; apply timedOut_true in Hto
                            |intros Hto; apply timedOut_false in Hto];
    rewrite Hc; cbn in *.
  - destruct a, cb; reflexivity.
  - open_handlers. cbn. rewrite Hto. reflexivity.
  - open_handlers. cbn. rewrite Hto. reflexivity.
Qed.

Lemma stateWaitEthernetCloud_step_witness :
  (* connected at 21 s *)
  loop (env true true false true 21000) waiting_ethernet_cloud =
    (tt,
     set_stateHandler ptr_stateEthernetCloudConnected
       (set_stateTime 21000 (set_activeInterface ETHERNET waiting_ethernet_cloud)),
     [Log_info "Cloud connected over Ethernet keepAlive=%d" [25];
      InterfaceChangeCallback 1%nat NONE ETHERNET; Particle_keepAlive 25])
  (* still not connected 30 s after [stateTime] *)
  /\ loop (env true true false false 31000) waiting_ethernet_cloud =
       (tt, set_stateHandler ptr_stateTryCellular waiting_ethernet_cloud,
        [Log_info "Took too long to connect to the cloud by Ethernet, switching to cellular" [];
         Particle_disconnect; Ethernet_disconnect])
  (* not connected, 1 ms before the timeout *)
  /\ loop (env true true false false 30999) waiting_ethernet_cloud =
       (tt, waiting_ethernet_cloud, []).
Proof.
  split; [|split].
  - apply (stateWaitEthernetCloud_step (env true true false true 21000)
             waiting_ethernet_cloud); reflexivity.
  - apply (stateWaitEthernetCloud_step (env true true false false 31000)
             waiting_ethernet_cloud); [reflexivity | reflexivity | vm_compute; discriminate].
  - apply (stateWaitEthernetCloud_step (env true true false false 30999)
             waiting_ethernet_cloud); [reflexivity | reflexivity | vm_compute; reflexivity].
Defined.

(** C4. The code leaves [stateWaitEthernetCloud] before
    [ethernetCloudConnectTimeout] has elapsed since the state was entered.
    With the default timeouts, [stateTryEthernet] runs at 1 s and records
    [stateTime]; the link is ready at 30 s and [stateWaitEthernetReady]
    enters [stateWaitEthernetCloud] without recording the time; at 31 s,
    one second after the entry and with a timeout of 30 s, the cloud is not
    connected and the handler disconnects the cloud and Ethernet and goes to
    [stateTryCellular].  The other entry to the state, from
    [stateEthernetCloudConnected] when the cloud drops, does record the
    time: entered at 60 s, the state is still kept at 89.999 s and left at
    90 s. *)
Lemma stateWaitEthernetCloud_left_before_timeout :
  let c := exec (run slow_link_boot) initial in
  let c' := exec (loop (env true true false false 60000)) on_ethernet in
  (stateHandler (exec (run (firstn 2 slow_link_boot)) initial) = ptr_stateWaitEthernetReady
   /\ stateHandler c = ptr_stateWaitEthernetCloud
   /\ stateTime c = 1000
   /\ ethernetCloudConnectTimeout c = 30000)
  /\ loop (env true true false false 31000) c =
       (tt, set_stateHandler ptr_stateTryCellular c,
        [Log_info "Took too long to connect to the cloud by Ethernet, switching to cellular" [];
         Particle_disconnect; Ethernet_disconnect])
  /\ (stateHandler c' = ptr_stateWaitEthernetCloud
      /\ stateTime c' = 60000
      /\ ethernetCloudConnectTimeout c' = 30000)
  /\ loop (env true true false false 89999) c' = (tt, c', [])
  /\ stateHandler (exec (loop (env true true false false 90000)) c') = ptr_stateTryCellular.
Proof. vm_compute. repeat split. Qed.

(** C5, as stated, fails on the code: when [stateCellularCloudConnected]
    leaves for [stateCellularWaitDisconnectedThenTryEthernet] (cloud still
    connected, [retryEthernetPeriod] elapsed, Ethernet present) it does not
    record the time: [stateTime] keeps its old value, not [millis()]. *)
Lemma stateCellularCloudConnected_retry_counterexample :
  let e := env true false true true 305000 in
  stateHandler on_cellular = ptr_stateCellularCloudConnected
  /\ Particle_connected e = true
  /\ retryEthernetPeriod on_cellular <= elapsed (millis e) (stateTime on_cellular)
  /\ ethernetPresent on_cellular = true
  /\ stateHandler (exec (loop e) on_cellular) =
       ptr_stateCellularWaitDisconnectedThenTryEthernet
  /\ millis e = 305000
  /\ stateTime (exec (loop e) on_cellular) = 5000
  /\ stateTime (exec (loop e) on_cellular) <> millis e.
Proof.
  cbv zeta. repeat split; try reflexivity; vm_compute; discriminate.
Qed.

(** C5, amended. In [stateCellularCloudConnected], when the cloud is still
    connected, [millis() - stateTime] has reached [retryEthernetPeriod] and
    Ethernet is present, the handler disconnects the cloud, makes
    [activeInterface] NONE (notifying the callback of a change) and goes to
    [stateCellularWaitDisconnectedThenTryEthernet]; every other member,
    [stateTime] among them, keeps its value. *)
Theorem stateCellularCloudConnected_retry (e : Env) (c : Controller) :
  stateHandler c = ptr_stateCellularCloudConnected ->
  Particle_connected e = true ->
  retryEthernetPeriod c <= elapsed (millis e) (stateTime c) ->
  ethernetPresent c = true ->
  loop e c =
    (tt,
     set_stateHandler ptr_stateCellularWaitDisconnectedThenTryEthernet
       (set_activeInterface NONE c),
     [Log_info "Trying Ethernet again" []; Particle_disconnect] ++ notifications c NONE)
  /\ stateTime (exec (loop e) c) = stateTime c.
Proof.
  intros Hst Hc Hto Hp. apply timedOut_true in Hto.
  unfold exec. rewrite loop_handler, Hst.
  destruct c as [h p t k1 k2 r t1 t2 t3 t4 col a cb]. cbn in Hst, Hp, Hto. subst h p.
  unfold notifications. cbn [handler]. unfold stateCellularCloudConnected.
  rewrite Hc. open_handlers. cbn. rewrite Hto.
  destruct a, cb; split; reflexivity.
Qed.

Lemma stateCellularCloudConnected_retry_witness :
  loop (env true false true true 305000) on_cellular =
    (tt,
     set_stateHandler ptr_stateCellularWaitDisconnectedThenTryEthernet
       (set_activeInterface NONE on_cellular),
     [Log_info "Trying Ethernet again" []; Particle_disconnect;
      InterfaceChangeCallback 1%nat CELLULAR NONE])
  /\ stateTime (exec (loop (env true false true true 305000)) on_cellular) = 5000.
Proof.
  apply (stateCellularCloudConnected_retry (env true false true true 305000) on_cellular);
    [reflexivity | reflexivity | vm_compute; discriminate | reflexivity].
Defined.

(** C7. Every run of [stateTryCellular] makes [activeInterface] NONE
    (notifying the callback of a change); applies a theme that sets the
    cloud-connecting, cloud-handshake and cloud-connected colours to
    [cellularBackupColor] when that colour is not [RGB_COLOR_CYAN], and
    restores the default theme when it is; then records [millis()] in
    [stateTime], disconnects Ethernet, connects cellular, and goes to
    [stateWaitCellularReady], whatever the collaborators answer. *)
Theorem stateTryCellular_spec (e : Env) (c : Controller) :
  stateHandler c = ptr_stateTryCellular ->
  exec (loop e) c =
    set_stateHandler ptr_stateWaitCellularReady
      (set_stateTime (millis e) (set_activeInterface NONE c))
  /\ (cellularBackupColor c <> RGB_COLOR_CYAN ->
      trace (loop e) c =
        [Log_info "Trying to connect by cellular" []] ++ notifications c NONE
          ++ [LEDSystemTheme_apply (backup_theme (cellularBackupColor c));
              Ethernet_disconnect; CellularOrWiFi_connect])
  /\ (cellularBackupColor c = RGB_COLOR_CYAN ->
      trace (loop e) c =
        [Log_info "Trying to connect by cellular" []] ++ notifications c NONE
          ++ [LEDSystemTheme_restoreDefault; Ethernet_disconnect; CellularOrWiFi_connect]).
Proof.
  intros Hst. unfold exec, trace. rewrite loop_handler, Hst.
  destruct c as [h p t k1 k2 r t1 t2 t3 t4 col a cb]. cbn in Hst. subst h.
  unfold notifications, backup_theme. cbn [handler cellularBackupColor].
  split; [|split]; [|intros Hne; apply Z.eqb_neq in Hne|intros Heq; apply Z.eqb_eq in Heq].
  - destruct a, cb; open_handlers; cbn; destruct (col =? RGB_COLOR_CYAN); reflexivity.
  - destruct a, cb; open_handlers; cbn; rewrite Hne; reflexivity.
  - destruct a, cb; open_handlers; cbn; rewrite Heq; reflexivity.
Qed.

Lemma stateTryCellular_spec_witness :
  let c := set_activeInterface ETHERNET
             (set_stateHandler ptr_stateTryCellular
                (withInterfaceChangeCallback (Some 1%nat) initial)) in
  let e := env true true false false 77000 in
  exec (loop e) c =
    set_stateHandler ptr_stateWaitCellularReady
      (set_stateTime 77000 (set_activeInterface NONE c))
  /\ trace (loop e) c =
       [Log_info "Trying to connect by cellular" [];
        InterfaceChangeCallback 1%nat ETHERNET NONE;
        LEDSystemTheme_apply (backup_theme RGB_COLOR_YELLOW);
        Ethernet_disconnect; CellularOrWiFi_connect]
  /\ trace (loop e) (withCellularBackupColor RGB_COLOR_CYAN c) =
       [Log_info "Trying to connect by cellular" [];
        InterfaceChangeCallback 1%nat ETHERNET NONE;
        LEDSystemTheme_restoreDefault; Ethernet_disconnect; CellularOrWiFi_connect].
Proof.
  intros c e. split; [|split].
  - apply (stateTryCellular_spec e c). reflexivity.
  - apply (stateTryCellular_spec e c); [reflexivity | vm_compute; discriminate].
  - apply (stateTryCellular_spec e (withCellularBackupColor RGB_COLOR_CYAN c));
      reflexivity.
Defined.

(** C10. [Particle.connect()] is called only by the transitions
    [stateWaitEthernetReady] -> [stateWaitEthernetCloud] and
    [stateWaitCellularReady] -> [stateWaitCellularCloud], taken when the link
    is ready.  The transitions taken when the cloud connection drops,
    [stateEthernetCloudConnected] -> [stateWaitEthernetCloud] and
    [stateCellularCloudConnected] -> [stateWaitCellularCloud], only log: they
    make no connect, disconnect or keep-alive call, and change the state
    handler and [stateTime] only. *)
Theorem particle_connect_only_on_link_ready (e : Env) (c : Controller) :
  (In Particle_connect (trace (loop e) c) ->
     (stateHandler c = ptr_stateWaitEthernetReady /\ Ethernet_ready e = true
      /\ stateHandler (exec (loop e) c) = ptr_stateWaitEthernetCloud)
     \/ (stateHandler c = ptr_stateWaitCellularReady /\ CellularOrWiFi_ready e = true
         /\ stateHandler (exec (loop e) c) = ptr_stateWaitCellularCloud))
  /\ (stateHandler c = ptr_stateEthernetCloudConnected ->
      Particle_connected e = false ->
      exec (loop e) c = set_stateTime (millis e) (set_stateHandler ptr_stateWaitEthernetCloud c)
      /\ trace (loop e) c =
           [Log_info "Disconnected from the cloud while on Ethernet, waiting for reconnect" []]
      /\ filter is_link_command (trace (loop e) c) = [])
  /\ (stateHandler c = ptr_stateCellularCloudConnected ->
      Particle_connected e = false ->
      exec (loop e) c = set_stateTime (millis e) (set_stateHandler ptr_stateWaitCellularCloud c)
      /\ trace (loop e) c = [Log_info "Disconnected from the cloud while on Cellular" []]
      /\ filter is_link_command (trace (loop e) c) = []).
Proof.
  unfold exec, trace. rewrite loop_handler.
  destruct c as [h p t k1 k2 r t1 t2 t3 t4 col a cb]. cbn [stateHandler].
  split; [|split].
  - destruct h, a, cb; run_handler; intros Hin; cbn in Hin;
      repeat (destruct Hin as [Hin|Hin]; [discriminate Hin || (clear Hin)|]);
      try contradiction; auto.
  - intros -> Hc. cbn [handler]. unfold stateEthernetCloudConnected. rewrite Hc.
    open_handlers. cbn. auto.
  - intros -> Hc. cbn [handler]. unfold stateCellularCloudConnected. rewrite Hc.
    open_handlers. cbn. auto.
Qed.

Lemma particle_connect_only_on_link_ready_witness :
  (* the link-ready transition calls [Particle.connect()] *)
  (stateHandler waiting_ethernet_ready = ptr_stateWaitEthernetReady
   /\ Ethernet_ready (env true true false false 2000) = true
   /\ stateHandler (exec (loop (env true true false false 2000)) waiting_ethernet_ready)
      = ptr_stateWaitEthernetCloud
   \/ stateHandler waiting_ethernet_ready = ptr_stateWaitCellularReady
      /\ CellularOrWiFi_ready (env true true false false 2000) = true
      /\ stateHandler (exec (loop (env true true false false 2000)) waiting_ethernet_ready)
         = ptr_stateWaitCellularCloud)
  (* cloud drop on Ethernet *)
  /\ (exec (loop (env true true false false 9000)) on_ethernet =
        set_stateTime 9000 (set_stateHandler ptr_stateWaitEthernetCloud on_ethernet)
      /\ trace (loop (env true true false false 9000)) on_ethernet =
           [Log_info "Disconnected from the cloud while on Ethernet, waiting for reconnect" []]
      /\ filter is_link_command (trace (loop (env true true false false 9000)) on_ethernet) = [])
  (* cloud drop on cellular *)
  /\ (exec (loop (env true false true false 9000)) on_cellular =
        set_stateTime 9000 (set_stateHandler ptr_stateWaitCellularCloud on_cellular)
      /\ trace (loop (env true false true false 9000)) on_cellular =
           [Log_info "Disconnected from the cloud while on Cellular" []]
      /\ filter is_link_command (trace (loop (env true false true false 9000)) on_cellular) = []).
Proof.
  split; [|split].
  - apply (particle_connect_only_on_link_ready (env true true false false 2000)
             waiting_ethernet_ready).
    vm_compute. left. reflexivity.
  - apply (particle_connect_only_on_link_ready (env true true false false 9000) on_ethernet);
      reflexivity.
  - apply (particle_connect_only_on_link_ready (env true false true false 9000) on_cellular);
      reflexivity.
Defined.

(** ** Configuration setters and getters *)

Lemma int32_small (v : Z) : INT_MIN <= v <= INT_MAX -> int32 v = v.
Proof.
  unfold INT_MIN, INT_MAX, int32. intros H.
  rewrite Z.mod_small; lia.
Qed.

Lemma int32_range (v : Z) : INT_MIN <= int32 v <= INT_MAX.
Proof.
  unfold INT_MIN, INT_MAX, int32.
  pose proof (Z.mod_pos_bound (v + 2 ^ 31) (2 ^ 32) eq_refl). lia.
Qed.

(** C8, as stated, fails on the code: the getters of the durations return
    [int], so a duration that does not fit in an [int] does not come back.
    2^31 ms (about 25 days) set as the retry period is read back negative. *)
Lemma setter_getter_roundtrip_counterexample :
  retryEthernetPeriod (withRetryEthernetPeriod (2 ^ 31) initial) = 2 ^ 31
  /\ getRetryEthernetPeriod (withRetryEthernetPeriod (2 ^ 31) initial) = - 2 ^ 31
  /\ getRetryEthernetPeriod (withRetryEthernetPeriod (2 ^ 31) initial) <> 2 ^ 31.
Proof. repeat split; vm_compute; discriminate. Qed.

(** C8, amended. For every configuration member and every value [v], the
    setter stores [v] in its member, leaves every other member as it was and
    returns the controller it was called on, so calls chain; the getter of
    the colour then returns [v], and the getter of a duration returns [v]
    converted to [int], which is [v] whenever [v] fits in an [int]. *)
Theorem setter_getter_roundtrip (v : Z) (c : Controller) :
  Forall (fun f => member f (setter f v c) = v
                   /\ machine (setter f v c) = machine c) fields
  /\ (forall i j fi fj,
        nth_error fields i = Some fi -> nth_error fields j = Some fj -> i <> j ->
        member fj (setter fi v c) = member fj c)
  /\ getCellularBackupColor (withCellularBackupColor v c) = v
  /\ Forall (fun f => getter f (setter f v c) = int32 v) (removelast fields)
  /\ (INT_MIN <= v <= INT_MAX ->
      Forall (fun f => getter f (setter f v c) = v) fields).
Proof.
  destruct c as [h p t k1 k2 r t1 t2 t3 t4 col a cb].
  split; [|split; [|split; [|split]]].
  - unfold fields. repeat constructor.
  - intros i j fi fj Hi' Hj Hne.
    destruct i as [|[|[|[|[|[|[|[|i]]]]]]]]; cbn in Hi';
      try (destruct i; discriminate Hi'); injection Hi' as <-;
      destruct j as [|[|[|[|[|[|[|[|j]]]]]]]]; cbn in Hj;
      try (destruct j; discriminate Hj); injection Hj as <-;
      try reflexivity; exfalso; apply Hne; reflexivity.
  - reflexivity.
  - cbn. repeat constructor.
  - intros Hv. pose proof (int32_small v Hv) as Hi.
    unfold fields. repeat constructor; cbn; exact Hi.
Qed.

Lemma setter_getter_roundtrip_witness :
  getRetryEthernetPeriod (withRetryEthernetPeriod 600000 initial) = 600000
  /\ getEthernetKeepAlive
       (withEthernetKeepAlive 300 (withRetryEthernetPeriod 600000 initial)) = 300
  /\ retryEthernetPeriod
       (withEthernetKeepAlive 300 (withRetryEthernetPeriod 600000 initial)) = 600000
  /\ retryEthernetPeriod
       (withEthernetKeepAlive (2 ^ 40) (withRetryEthernetPeriod 600000 initial)) = 600000.
Proof.
  assert (H600 : INT_MIN <= 600000 <= INT_MAX) by (vm_compute; split; discriminate).
  assert (H300 : INT_MIN <= 300 <= INT_MAX) by (vm_compute; split; discriminate).
  pose proof (setter_getter_roundtrip 600000 initial) as [F1 [_ [_ [_ G1]]]].
  pose proof (setter_getter_roundtrip 300 (withRetryEthernetPeriod 600000 initial))
    as [_ [N2 [_ [_ G2]]]].
  pose proof (setter_getter_roundtrip (2 ^ 40) (withRetryEthernetPeriod 600000 initial))
    as [_ [N3 _]].
  split; [|split; [|split]].
  - exact (Forall_inv (Forall_inv_tail (Forall_inv_tail (G1 H600)))).
  - exact (Forall_inv (G2 H300)).
  - exact (eq_trans (N2 0%nat 2%nat _ _ eq_refl eq_refl (O_S 1))
                    (proj1 (Forall_inv (Forall_inv_tail (Forall_inv_tail F1))))).
  - exact (eq_trans (N3 0%nat 2%nat _ _ eq_refl eq_refl (O_S 1))
                    (proj1 (Forall_inv (Forall_inv_tail (Forall_inv_tail F1))))).
Defined.

(** ** Executions *)

Lemma exec_bind {A B : Type} (m : M A) (k : A -> M B) (c : Controller) :
  exec (bind m k) c = exec (k (fst (fst (m c)))) (exec m c).
Proof.
  unfold exec, bind. destruct (m c) as [[a c1] evs1]. cbn.
  destruct (k a c1) as [[b c2] evs2]. reflexivity.
Qed.

Lemma exec_run_nil (c : Controller) : exec (run []) c = c.
Proof. reflexivity. Qed.

Lemma exec_run_cons (k : Call) (ks : list Call) (c : Controller) :
  exec (run (k :: ks)) c = exec (run ks) (exec (call k) c).
Proof. cbn [run]. apply exec_bind. Qed.

Lemma exec_run_app (ks1 ks2 : list Call) (c : Controller) :
  exec (run (ks1 ++ ks2)) c = exec (run ks2) (exec (run ks1) c).
Proof.
  revert c. induction ks1 as [|k ks1 IH]; intros c.
  - reflexivity.
  - cbn [app]. rewrite !exec_run_cons. apply IH.
Qed.

(** A property of the controller every public call keeps holds along every
    execution. *)
Lemma run_invariant (P : Controller -> Prop) :
  (forall k c, P c -> P (exec (call k) c)) ->
  forall ks c, P c -> P (exec (run ks) c).
Proof.
  intros Hstep ks. induction ks as [|k ks IH]; intros c Hc.
  - exact Hc.
  - rewrite exec_run_cons. apply IH, Hstep, Hc.
Qed.

Lemma exec_call_loop (e : Env) (c : Controller) :
  exec (call (Call_loop e)) c = exec (handler (stateHandler c) e) c.
Proof. cbn [call]. unfold exec. rewrite loop_handler. reflexivity. Qed.

(** The calls other than [loop()] leave the state machine as it is. *)
Lemma call_config_machine (k : Call) (c : Controller) :
  (forall e, k <> Call_loop e) ->
  stateHandler (exec (call k) c) = stateHandler c
  /\ ethernetPresent (exec (call k) c) = ethernetPresent c
  /\ activeInterface (exec (call k) c) = activeInterface c
  /\ stateTime (exec (call k) c) = stateTime c.
Proof.
  intros Hk. destruct k; try (repeat split; reflexivity).
  exfalso. apply (Hk e). reflexivity.
Qed.

(** No call makes [stateHandler] refer to [stateStart], and a [loop()] call
    always leaves it. *)
Lemma loop_leaves_stateStart (e : Env) (c : Controller) :
  stateHandler (exec (loop e) c) <> ptr_stateStart.
Proof.
  unfold exec. rewrite loop_handler.
  destruct c as [h p t k1 k2 r t1 t2 t3 t4 col a cb].
  destruct h, a, cb; run_handler; discriminate.
Qed.

Lemma call_not_stateStart (k : Call) (c : Controller) :
  stateHandler c <> ptr_stateStart -> stateHandler (exec (call k) c) <> ptr_stateStart.
Proof.
  intros Hc. destruct k; try exact Hc. apply loop_leaves_stateStart.
Qed.

(** Only [stateStart] assigns [ethernetPresent]. *)
Lemma call_ethernetPresent (k : Call) (c : Controller) :
  stateHandler c <> ptr_stateStart ->
  ethernetPresent (exec (call k) c) = ethernetPresent c.
Proof.
  intros Hc. destruct k; try reflexivity.
  rewrite exec_call_loop.
  destruct c as [h p t k1 k2 r t1 t2 t3 t4 col a cb]. cbn in Hc.
  destruct h; try (exfalso; apply Hc; reflexivity);
    destruct a, cb; run_handler; reflexivity.
Qed.

Lemma tour_visits_all_handlers :
  visited tour initial =
    [ ptr_stateStart; ptr_stateTryEthernet; ptr_stateWaitEthernetReady;
      ptr_stateWaitEthernetCloud; ptr_stateEthernetCloudConnected;
      ptr_stateWaitEthernetCloud; ptr_stateTryCellular; ptr_stateWaitCellularReady;
      ptr_stateWaitCellularCloud; ptr_stateCellularCloudConnected;
      ptr_stateCellularWaitDisconnectedThenTryEthernet; ptr_stateTryEthernet ].
Proof. vm_compute. reflexivity. Qed.

(** C9. [stateHandler] always refers to one of ten member functions, all
    different and each of them reached by some execution from the initial
    controller; a [loop()] call runs the one [stateHandler] refers to and
    nothing else; after a [loop()] call [stateHandler] never refers to
    [stateStart] again, and [ethernetPresent] keeps the value it has after
    the first [loop()] call, whatever calls follow. *)
Theorem stateHandler_ten_states (c : Controller) (e : Env) (ks : list Call) :
  (List.length all_handlers = 10%nat /\ NoDup all_handlers
   /\ forall h, In h all_handlers
                /\ exists ks', stateHandler (exec (run ks') initial) = h)
  /\ In (stateHandler (exec (loop e) c)) all_handlers
  /\ loop e c = handler (stateHandler c) e c
  /\ stateHandler (exec (loop e) c) <> ptr_stateStart
  /\ stateHandler (exec (run ks) (exec (loop e) c)) <> ptr_stateStart
  /\ ethernetPresent (exec (run ks) (exec (loop e) c)) = ethernetPresent (exec (loop e) c).
Proof.
  assert (Hall : forall h, In h all_handlers) by (intros []; cbn; tauto).
  split; [split; [reflexivity|split]|].
  - unfold all_handlers.
    repeat (constructor; [cbn; intros H; repeat (destruct H as [H|H]; [discriminate H|]);
                          exact H|]).
    constructor.
  - intros h. split; [apply Hall|].
    assert (Hin : In h (visited tour initial)).
    { rewrite tour_visits_all_handlers. destruct h; cbn; tauto. }
    unfold visited in Hin. apply in_map_iff in Hin.
    destruct Hin as [n [Hn _]]. exists (firstn n tour). exact Hn.
  - split; [apply Hall|]. split; [apply loop_handler|].
    split; [apply loop_leaves_stateStart|].
    pose proof (loop_leaves_stateStart e c) as Hleft.
    generalize dependent (exec (loop e) c). intros c1 Hleft.
    apply (run_invariant
             (fun c' => stateHandler c' <> ptr_stateStart
                        /\ ethernetPresent c' = ethernetPresent c1)).
    + intros k c' [Hs Hp]. split; [apply call_not_stateStart, Hs|].
      rewrite call_ethernetPresent; assumption.
    + split; [exact Hleft | reflexivity].
Qed.

(** ** The active interface along executions *)

Lemma call_interface_allowed (k : Call) (c : Controller) :
  interface_allowed (stateHandler c) (activeInterface c) = true ->
  interface_allowed (stateHandler (exec (call k) c)) (activeInterface (exec (call k) c)) = true.
Proof.
  intros Hc. destruct k; try exact Hc.
  rewrite exec_call_loop.
  destruct c as [h p t k1 k2 r t1 t2 t3 t4 col a cb]. cbn in Hc.
  destruct h, a; try discriminate Hc; destruct cb; run_handler; reflexivity.
Qed.





(** ** Without Ethernet hardware *)

Lemma stateStart_cellular_only (e : Env) (c : Controller) :
  stateHandler c = ptr_stateStart ->
  ethernetPresent (exec (loop e) c) = false ->
  cellular_only (exec (loop e) c).
Proof.
  unfold cellular_only, exec. rewrite loop_handler.
  destruct c as [h p t k1 k2 r t1 t2 t3 t4 col a cb]. cbn [stateHandler].
  intros ->. destruct p; run_handler; intros Hp; try discriminate Hp; cbn; auto.
Qed.

Lemma call_cellular_only (k : Call) (c : Controller) :
  cellular_only c -> cellular_only (exec (call k) c).
Proof.
  intros [Hp Hs]. destruct k; try (split; assumption).
  unfold cellular_only. rewrite exec_call_loop.
  destruct c as [h p t k1 k2 r t1 t2 t3 t4 col a cb]. cbn in Hp, Hs. subst p.
  destruct h; try (exfalso; repeat (destruct Hs as [Hs|Hs]; [discriminate Hs|]); exact Hs);
    destruct a, cb; run_handler; cbn; auto 6.
Qed.

(** C3. When [ethernetPresent] is false after the [loop()] call that ran
    [stateStart], no later call brings the controller to [stateTryEthernet];
    [stateWaitCellularReady] is left only when the cellular link is ready and
    [stateWaitCellularCloud] only when the cloud is connected: until then a
    [loop()] call in them changes nothing and calls nothing, whatever the
    time elapsed. *)
Theorem no_ethernet_never_tries_ethernet
    (c0 : Controller) (e0 : Env) (ks : list Call) (e : Env) :
  stateHandler c0 = ptr_stateStart ->
  ethernetPresent (exec (loop e0) c0) = false ->
  let c := exec (run ks) (exec (loop e0) c0) in
  stateHandler c <> ptr_stateTryEthernet
  /\ stateHandler (exec (loop e) c) <> ptr_stateTryEthernet
  /\ ethernetPresent c = false
  /\ (stateHandler c = ptr_stateWaitCellularReady ->
      (CellularOrWiFi_ready e = false -> loop e c = (tt, c, []))
      /\ (CellularOrWiFi_ready e = true ->
          stateHandler (exec (loop e) c) = ptr_stateWaitCellularCloud))
  /\ (stateHandler c = ptr_stateWaitCellularCloud ->
      (Particle_connected e = false -> loop e c = (tt, c, []))
      /\ (Particle_connected e = true ->
          stateHandler (exec (loop e) c) = ptr_stateCellularCloudConnected)).
Proof.
  intros Hs Hp c.
  assert (Hc : cellular_only c).
  { apply (run_invariant cellular_only call_cellular_only).
    apply stateStart_cellular_only; assumption. }
  assert (Hc' : cellular_only (exec (call (Call_loop e)) c))
    by apply call_cellular_only, Hc.
  cbn [call] in Hc'.
  assert (Hne : forall c', cellular_only c' -> stateHandler c' <> ptr_stateTryEthernet).
  { intros c' [_ Hin] Heq. rewrite Heq in Hin.
    repeat (destruct Hin as [Hin|Hin]; [discriminate Hin|]). exact Hin. }
  split; [apply Hne, Hc|]. split; [apply Hne, Hc'|]. split; [apply Hc|].
  destruct Hc as [Hpc _]. clear Hc' Hne. unfold exec. rewrite loop_handler.
  generalize dependent c. intros c Hpc.
  destruct c as [h p t k1 k2 r t1 t2 t3 t4 col a cb]. cbn in Hpc |- *. subst p.
  split; intros ->; cbn [handler]; split; intros Hr.
  - unfold stateWaitCellularReady. rewrite Hr. run_handler; reflexivity.
  - unfold stateWaitCellularReady. rewrite Hr. run_handler; reflexivity.
  - unfold stateWaitCellularCloud. rewrite Hr. run_handler; reflexivity.
  - unfold stateWaitCellularCloud. rewrite Hr. destruct a, cb; run_handler; reflexivity.
Qed.

Lemma no_ethernet_never_tries_ethernet_witness :
  (* ten minutes without a cellular link: twice [cellularConnectTimeout] *)
  loop (env false false false false 600000) (exec (run cellular_boot)
        (exec (loop (env false false false false 0)) initial))
  = (tt, exec (run cellular_boot) (exec (loop (env false false false false 0)) initial), [])
  (* ten minutes with a link and without the cloud *)
  /\ loop (env false false true false 600000) (exec (run cellular_boot_ready)
        (exec (loop (env false false false false 0)) initial))
     = (tt, exec (run cellular_boot_ready)
              (exec (loop (env false false false false 0)) initial), []).
Proof.
  split.
  - destruct (no_ethernet_never_tries_ethernet initial (env false false false false 0)
                cellular_boot (env false false false false 600000) eq_refl eq_refl)
      as [_ [_ [_ [Hready _]]]].
    apply Hready; reflexivity.
  - destruct (no_ethernet_never_tries_ethernet initial (env false false false false 0)
                cellular_boot_ready (env false false true false 600000) eq_refl eq_refl)
      as [_ [_ [_ [_ Hcloud]]]].
    apply Hcloud; reflexivity.
Defined.

(** * Further properties of the library *)

(** ** Traces of executions *)

Lemma trace_bind {A B : Type} (m : M A) (k : A -> M B) (c : Controller) :
  trace (bind m k) c = trace m c ++ trace (k (fst (fst (m c)))) (exec m c).
Proof.
  unfold exec, trace, bind. destruct (m c) as [[a c1] evs1]. cbn.
  destruct (k a c1) as [[b c2] evs2]. reflexivity.
Qed.

Lemma trace_run_cons (k : Call) (ks : list Call) (c : Controller) :
  trace (run (k :: ks)) c = trace (call k) c ++ trace (run ks) (exec (call k) c).
Proof. cbn [run]. apply trace_bind. Qed.

Lemma trace_call_loop (e : Env) (c : Controller) :
  trace (call (Call_loop e)) c = trace (handler (stateHandler c) e) c.
Proof. cbn [call]. unfold trace. rewrite loop_handler. reflexivity. Qed.

Lemma trace_call_config (k : Call) (c : Controller) :
  (forall e, k <> Call_loop e) -> trace (call k) c = [].
Proof.
  intros Hk. destruct k; try reflexivity. exfalso. apply (Hk e). reflexivity.
Qed.

(** When every call keeps an invariant of the controller and, under it, makes
    only events with a given property, so does every execution. *)
Lemma run_trace_invariant (I : Controller -> Prop) (P : Event -> Prop) :
  (forall k c, I c -> I (exec (call k) c) /\ Forall P (trace (call k) c)) ->
  forall ks c, I c -> I (exec (run ks) c) /\ Forall P (trace (run ks) c).
Proof.
  intros Hstep ks. induction ks as [|k ks IH]; intros c Hc.
  - split; [exact Hc | constructor].
  - rewrite exec_run_cons, trace_run_cons.
    destruct (Hstep k c Hc) as [Hc1 Hev1]. destruct (IH _ Hc1) as [Hc2 Hev2].
    split; [exact Hc2 | apply Forall_app; split; assumption].
Qed.

(** ** The remaining handlers *)

(** [stateStart] enables Ethernet detection exactly when the feature is not
    enabled yet, sets [ethernetPresent] when the MAC address call answers
    with an address and never clears it, and goes to [stateTryEthernet] when
    [ethernetPresent] holds then, to [stateTryCellular] otherwise; it makes
    no call on a network interface or on the cloud and changes no other
    member. *)
Theorem stateStart_spec (e : Env) (c : Controller) :
  stateHandler c = ptr_stateStart ->
  let present := ethernetPresent c || has_mac e in
  exec (loop e) c =
    set_stateHandler (if present then ptr_stateTryEthernet else ptr_stateTryCellular)
      (set_ethernetPresent present c)
  /\ trace (loop e) c =
       (if System_featureEnabled_ETHERNET_DETECTION e then []
        else [Log_info "FEATURE_ETHERNET_DETECTION enabled (was disabled before)" [];
              System_enableFeature_ETHERNET_DETECTION])
       ++ [Log_info (if has_mac e then "Ethernet adapter present" else "No Ethernet adapter") []].
Proof.
  intros Hst. unfold exec, trace, has_mac. rewrite loop_handler, Hst.
  destruct c as [h p t k1 k2 r t1 t2 t3 t4 col a cb]. cbn in Hst. subst h.
  cbn [handler ethernetPresent]. unfold stateStart.
  destruct (System_featureEnabled_ETHERNET_DETECTION e), (Ethernet_macAddress e), p;
    split; reflexivity.
Qed.

Lemma stateStart_spec_witness :
  (* detection disabled, no adapter *)
  loop (mkEnv false None false false false true 0) initial =
    (tt, set_stateHandler ptr_stateTryCellular initial,
     [Log_info "FEATURE_ETHERNET_DETECTION enabled (was disabled before)" [];
      System_enableFeature_ETHERNET_DETECTION; Log_info "No Ethernet adapter" []])
  (* detection enabled, adapter answers *)
  /\ exec (loop (env true false false false 0)) initial =
       set_stateHandler ptr_stateTryEthernet (set_ethernetPresent true initial)
  /\ trace (loop (env true false false false 0)) initial =
       [Log_info "Ethernet adapter present" []].
Proof.
  destruct (stateStart_spec (mkEnv false None false false false true 0) initial eq_refl)
    as [Hx Ht].
  destruct (stateStart_spec (env true false false false 0) initial eq_refl) as [Hx' Ht'].
  split; [|split; [exact Hx' | exact Ht']].
  unfold exec, trace in Hx, Ht.
  destruct (loop (mkEnv false None false false false true 0) initial) as [[[] c'] evs].
  cbn in Hx, Ht. rewrite Hx, Ht. reflexivity.
Defined.

(** [stateTryEthernet] restores the default LED theme, makes
    [activeInterface] NONE (notifying the callback of a change), records
    [millis()] in [stateTime], disconnects cellular, then connects Ethernet,
    and goes to [stateWaitEthernetReady], whatever the collaborators
    answer. *)
Theorem stateTryEthernet_spec (e : Env) (c : Controller) :
  stateHandler c = ptr_stateTryEthernet ->
  loop e c =
    (tt,
     set_stateHandler ptr_stateWaitEthernetReady
       (set_stateTime (millis e) (set_activeInterface NONE c)),
     [Log_info "Trying to connect by Ethernet" []; LEDSystemTheme_restoreDefault]
       ++ notifications c NONE ++ [CellularOrWiFi_disconnect; Ethernet_connect]).
Proof.
  intros Hst. rewrite loop_handler, Hst.
  destruct c as [h p t k1 k2 r t1 t2 t3 t4 col a cb]. cbn in Hst. subst h.
  unfold notifications. cbn [handler]. destruct a, cb; reflexivity.
Qed.

Lemma stateTryEthernet_spec_witness :
  let c := set_activeInterface CELLULAR
             (set_stateHandler ptr_stateTryEthernet
                (withInterfaceChangeCallback (Some 1%nat) initial)) in
  loop (env true false true false 180000) c =
    (tt,
     set_stateHandler ptr_stateWaitEthernetReady
       (set_stateTime 180000 (set_activeInterface NONE c)),
     [Log_info "Trying to connect by Ethernet" []; LEDSystemTheme_restoreDefault;
      InterfaceChangeCallback 1%nat CELLULAR NONE;
      CellularOrWiFi_disconnect; Ethernet_connect]).
Proof.
  intros c. apply (stateTryEthernet_spec (env true false true false 180000) c). reflexivity.
Defined.

(** [stateWaitEthernetReady]: a ready Ethernet link is taken whatever time
    has elapsed: the handler calls [Particle.connect()] and goes to
    [stateWaitEthernetCloud] without recording the time; otherwise, once
    [millis() - stateTime] has reached [ethernetConnectTimeout], it goes to
    [stateTryCellular] and calls no collaborator but the log; otherwise it
    changes nothing and calls nothing. *)
Theorem stateWaitEthernetReady_spec (e : Env) (c : Controller) :
  stateHandler c = ptr_stateWaitEthernetReady ->
  (Ethernet_ready e = true ->
     loop e c = (tt, set_stateHandler ptr_stateWaitEthernetCloud c, [Particle_connect]))
  /\ (Ethernet_ready e = false ->
      ethernetConnectTimeout c <= elapsed (millis e) (stateTime c) ->
      loop e c =
        (tt, set_stateHandler ptr_stateTryCellular c,
         [Log_info "Timed out connecting to Ethernet, reverting to Cellular" []]))
  /\ (Ethernet_ready e = false ->
      elapsed (millis e) (stateTime c) < ethernetConnectTimeout c ->
      loop e c = (tt, c, [])).
Proof.
  intros Hst. rewrite loop_handler, Hst.
  destruct c as [h p t k1 k2 r t1 t2 t3 t4 col a cb]. cbn in Hst. subst h.
  cbn [handler]. unfold stateWaitEthernetReady.
  repeat split; intros Hr; [|intros Hto; apply timedOut_true in Hto
                            |intros Hto; apply timedOut_false in Hto];
    rewrite Hr; open_handlers; cbn in *; try rewrite Hto; reflexivity.
Qed.

Lemma stateWaitEthernetReady_spec_witness :
  (* ready, 99 s after [stateTime]: the timeout of 30 s does not matter *)
  loop (env true true false false 100000) waiting_ethernet_ready =
    (tt, set_stateHandler ptr_stateWaitEthernetCloud waiting_ethernet_ready,
     [Particle_connect])
  /\ loop (env true false false false 31000) waiting_ethernet_ready =
       (tt, set_stateHandler ptr_stateTryCellular waiting_ethernet_ready,
        [Log_info "Timed out connecting to Ethernet, reverting to Cellular" []])
  /\ loop (env true false false false 30999) waiting_ethernet_ready =
       (tt, waiting_ethernet_ready, []).
Proof.
  split; [|split].
  - apply (stateWaitEthernetReady_spec (env true true false false 100000)
             waiting_ethernet_ready); reflexivity.
  - apply (stateWaitEthernetReady_spec (env true false false false 31000)
             waiting_ethernet_ready); [reflexivity | reflexivity | vm_compute; discriminate].
  - apply (stateWaitEthernetReady_spec (env true false false false 30999)
             waiting_ethernet_ready); [reflexivity | reflexivity | vm_compute; reflexivity].
Defined.

(** [stateWaitCellularReady]: a ready cellular link is taken whatever time
    has elapsed, with [Particle.connect()] and without recording the time;
    otherwise, once [millis() - stateTime] has reached
    [cellularConnectTimeout] and Ethernet is present, the handler goes to
    [stateTryEthernet], calling nothing, not even the log; in every other
    case it changes nothing and calls nothing. *)
Theorem stateWaitCellularReady_spec (e : Env) (c : Controller) :
  stateHandler c = ptr_stateWaitCellularReady ->
  (CellularOrWiFi_ready e = true ->
     loop e c = (tt, set_stateHandler ptr_stateWaitCellularCloud c, [Particle_connect]))
  /\ (CellularOrWiFi_ready e = false ->
      cellularConnectTimeout c <= elapsed (millis e) (stateTime c) ->
      ethernetPresent c = true ->
      loop e c = (tt, set_stateHandler ptr_stateTryEthernet c, []))
  /\ (CellularOrWiFi_ready e = false ->
      elapsed (millis e) (stateTime c) < cellularConnectTimeout c \/ ethernetPresent c = false ->
      loop e c = (tt, c, [])).
Proof.
  intros Hst. rewrite loop_handler, Hst.
  destruct c as [h p t k1 k2 r t1 t2 t3 t4 col a cb]. cbn in Hst. subst h.
  cbn [handler]. unfold stateWaitCellularReady.
  repeat split; intros Hr; rewrite Hr; open_handlers; cbn in *.
  - reflexivity.
  - intros Hto ->. apply timedOut_true in Hto. rewrite Hto. reflexivity.
  - intros [Hto | ->].
    + apply timedOut_false in Hto. rewrite Hto. reflexivity.
    + destruct (timedOut (millis e) t t1); reflexivity.
Qed.

Lemma stateWaitCellularReady_spec_witness :
  loop (env true false true false 700000) waiting_cellular_ready =
    (tt, set_stateHandler ptr_stateWaitCellularCloud waiting_cellular_ready,
     [Particle_connect])
  /\ loop (env true false false false 301000) waiting_cellular_ready =
       (tt, set_stateHandler ptr_stateTryEthernet waiting_cellular_ready, [])
  /\ loop (env true false false false 300999) waiting_cellular_ready =
       (tt, waiting_cellular_ready, []).
Proof.
  split; [|split].
  - apply (stateWaitCellularReady_spec (env true false true false 700000)
             waiting_cellular_ready); reflexivity.
  - apply (stateWaitCellularReady_spec (env true false false false 301000)
             waiting_cellular_ready);
      [reflexivity | reflexivity | vm_compute; discriminate | reflexivity].
  - apply (stateWaitCellularReady_spec (env true false false false 300999)
             waiting_cellular_ready);
      [reflexivity | reflexivity | left; vm_compute; reflexivity].
Defined.

(** [stateWaitCellularCloud]: when the cloud is connected the handler sets
    the keep-alive to the count of [cellularKeepAlive] as an [unsigned]
    (modulo 2^32), then makes [activeInterface]
    CELLULAR (notifying the callback of a change), records [millis()] in
    [stateTime] and goes to [stateCellularCloudConnected]; otherwise, once
    [millis() - stateTime] has reached [cellularCloudConnectTimeout] and
    Ethernet is present, it disconnects the cloud, leaves the cellular link
    as it is and goes to [stateTryEthernet]; in every other case it changes
    nothing and calls nothing. *)
Theorem stateWaitCellularCloud_spec (e : Env) (c : Controller) :
  stateHandler c = ptr_stateWaitCellularCloud ->
  (Particle_connected e = true ->
     loop e c =
       (tt,
        set_stateHandler ptr_stateCellularCloudConnected
          (set_stateTime (millis e) (set_activeInterface CELLULAR c)),
        [Log_info "Cloud connected over cellular keepAlive=%d" [int32 (cellularKeepAlive c)];
         Particle_keepAlive (uint32 (cellularKeepAlive c))]
          ++ notifications c CELLULAR))
  /\ (Particle_connected e = false ->
      cellularCloudConnectTimeout c <= elapsed (millis e) (stateTime c) ->
      ethernetPresent c = true ->
      loop e c =
        (tt, set_stateHandler ptr_stateTryEthernet c,
         [Log_info "Took too long to connect to the cloud by Cellular, trying Ethernet again" [];
          Particle_disconnect]))
  /\ (Particle_connected e = false ->
      elapsed (millis e) (stateTime c) < cellularCloudConnectTimeout c
      \/ ethernetPresent c = false ->
      loop e c = (tt, c, [])).
Proof.
  intros Hst. rewrite loop_handler, Hst.
  destruct c as [h p t k1 k2 r t1 t2 t3 t4 col a cb]. cbn in Hst. subst h.
  unfold notifications. cbn [handler]. unfold stateWaitCellularCloud.
  repeat split; intros Hr; rewrite Hr; open_handlers; cbn in *.
  - destruct a, cb; reflexivity.
  - intros Hto ->. apply timedOut_true in Hto. rewrite Hto. reflexivity.
  - intros [Hto | ->].
    + apply timedOut_false in Hto. rewrite Hto. reflexivity.
    + destruct (timedOut (millis e) t t2); reflexivity.
Qed.

Lemma stateWaitCellularCloud_spec_witness :
  loop (env true false true true 9000) waiting_cellular_cloud =
    (tt,
     set_stateHandler ptr_stateCellularCloudConnected
       (set_stateTime 9000 (set_activeInterface CELLULAR waiting_cellular_cloud)),
     [Log_info "Cloud connected over cellular keepAlive=%d" [1380];
      Particle_keepAlive 1380; InterfaceChangeCallback 1%nat NONE CELLULAR])
  /\ loop (env true false true false 121000) waiting_cellular_cloud =
       (tt, set_stateHandler ptr_stateTryEthernet waiting_cellular_cloud,
        [Log_info "Took too long to connect to the cloud by Cellular, trying Ethernet again" [];
         Particle_disconnect])
  /\ loop (env true false true false 120999) waiting_cellular_cloud =
       (tt, waiting_cellular_cloud, []).
Proof.
  split; [|split].
  - apply (stateWaitCellularCloud_spec (env true false true true 9000)
             waiting_cellular_cloud); reflexivity.
  - apply (stateWaitCellularCloud_spec (env true false true false 121000)
             waiting_cellular_cloud);
      [reflexivity | reflexivity | vm_compute; discriminate | reflexivity].
  - apply (stateWaitCellularCloud_spec (env true false true false 120999)
             waiting_cellular_cloud);
      [reflexivity | reflexivity | left; vm_compute; reflexivity].
Defined.

(** ** States that are kept *)

(** Calls that keep an invariant and call no collaborator make executions
    that do. *)
Lemma run_quiet (Q : Call -> Prop) (I : Controller -> Prop) :
  (forall k c, Q k -> I c -> I (exec (call k) c) /\ trace (call k) c = []) ->
  forall ks c, Forall Q ks -> I c -> I (exec (run ks) c) /\ trace (run ks) c = [].
Proof.
  intros Hstep ks. induction ks as [|k ks IH]; intros c HQ Hc.
  - split; [exact Hc | reflexivity].
  - rewrite exec_run_cons, trace_run_cons.
    destruct (Hstep k c (Forall_inv HQ) Hc) as [Hc1 Ht1].
    destruct (IH _ (Forall_inv_tail HQ) Hc1) as [Hc2 Ht2].
    rewrite Ht1, Ht2. split; [exact Hc2 | reflexivity].
Qed.

(** While the cloud stays connected the controller stays in
    [stateEthernetCloudConnected] for ever: no number of [loop()] calls, no
    elapsed time and no configuration call in between makes it leave the
    state, touch [activeInterface] or [stateTime], or call a collaborator. *)
Theorem stateEthernetCloudConnected_steady (c : Controller) (ks : list Call) :
  stateHandler c = ptr_stateEthernetCloudConnected ->
  Forall cloud_up ks ->
  stateHandler (exec (run ks) c) = ptr_stateEthernetCloudConnected
  /\ activeInterface (exec (run ks) c) = activeInterface c
  /\ stateTime (exec (run ks) c) = stateTime c
  /\ trace (run ks) c = [].
Proof.
  intros Hst Hup.
  destruct (run_quiet cloud_up
              (fun c' => stateHandler c' = ptr_stateEthernetCloudConnected
                         /\ activeInterface c' = activeInterface c
                         /\ stateTime c' = stateTime c)) with (ks := ks) (c := c)
    as [[H1 [H2 H3]] H4]; auto.
  clear. intros k c' Hk [Hs [Ha Ht]].
  destruct k; try (repeat split; assumption).
  cbn in Hk. rewrite exec_call_loop, trace_call_loop, Hs.
  destruct c' as [h p t k1 k2 r t1 t2 t3 t4 col a cb]. cbn in Hs, Ha, Ht |- *.
  unfold stateEthernetCloudConnected. rewrite Hk. cbn. auto.
Qed.

Lemma stateEthernetCloudConnected_steady_witness :
  let ks := [ Call_loop (env true true false true 6000);
              Call_withEthernetCloudConnectTimeout 1;
              Call_loop (env true false false true 4000000000);
              Call_loop (env true true false true (2 ^ 40)) ] in
  stateHandler (exec (run ks) on_ethernet) = ptr_stateEthernetCloudConnected
  /\ activeInterface (exec (run ks) on_ethernet) = ETHERNET
  /\ stateTime (exec (run ks) on_ethernet) = 5000
  /\ trace (run ks) on_ethernet = [].
Proof.
  intros ks. apply (stateEthernetCloudConnected_steady on_ethernet ks); [reflexivity|].
  repeat constructor.
Defined.

(** [stateCellularCloudConnected] with the cloud still connected: before
    [millis() - stateTime] reaches [retryEthernetPeriod], or at any time when
    Ethernet is not present, a [loop()] call changes nothing and calls
    nothing; and when Ethernet is not present no number of such calls, with
    configuration calls in between, makes the controller leave the state. *)
Theorem stateCellularCloudConnected_steady (e : Env) (c : Controller) (ks : list Call) :
  stateHandler c = ptr_stateCellularCloudConnected ->
  (Particle_connected e = true ->
   elapsed (millis e) (stateTime c) < retryEthernetPeriod c \/ ethernetPresent c = false ->
   loop e c = (tt, c, []))
  /\ (ethernetPresent c = false -> Forall cloud_up ks ->
      stateHandler (exec (run ks) c) = ptr_stateCellularCloudConnected
      /\ activeInterface (exec (run ks) c) = activeInterface c
      /\ stateTime (exec (run ks) c) = stateTime c
      /\ trace (run ks) c = []).
Proof.
  intros Hst. split.
  - intros Hc Hcase. rewrite loop_handler, Hst.
    destruct c as [h p t k1 k2 r t1 t2 t3 t4 col a cb]. cbn in Hst, Hcase |- *.
    unfold stateCellularCloudConnected. rewrite Hc. open_handlers. cbn.
    destruct Hcase as [Hto | ->].
    + apply timedOut_false in Hto. rewrite Hto. reflexivity.
    + destruct (timedOut (millis e) t r); reflexivity.
  - intros Hp Hup.
    destruct (run_quiet cloud_up
                (fun c' => (stateHandler c' = ptr_stateCellularCloudConnected
                            /\ ethernetPresent c' = false)
                           /\ activeInterface c' = activeInterface c
                           /\ stateTime c' = stateTime c)) with (ks := ks) (c := c)
      as [[[H1 _] [H2 H3]] H4]; auto.
    clear. intros k c' Hk [[Hs Hp] [Ha Ht]].
    destruct k; try (repeat split; assumption).
    cbn in Hk. rewrite exec_call_loop, trace_call_loop, Hs.
    destruct c' as [h p t k1 k2 r t1 t2 t3 t4 col a cb]. cbn in Hs, Hp, Ha, Ht |- *.
    subst p. unfold stateCellularCloudConnected. rewrite Hk. open_handlers. cbn.
    destruct (timedOut (millis e) t r); cbn; auto.
Qed.

Lemma stateCellularCloudConnected_steady_witness :
  let c := set_ethernetPresent false on_cellular in
  let ks := [ Call_loop (env false false true true 400000);
              Call_withRetryEthernetPeriod 0;
              Call_loop (env false false true true 800000) ] in
  loop (env true false true true 304999) on_cellular = (tt, on_cellular, [])
  /\ stateHandler (exec (run ks) c) = ptr_stateCellularCloudConnected
  /\ activeInterface (exec (run ks) c) = CELLULAR
  /\ stateTime (exec (run ks) c) = 5000
  /\ trace (run ks) c = [].
Proof.
  intros c ks. split.
  - apply (stateCellularCloudConnected_steady (env true false true true 304999)
             on_cellular []); [reflexivity | reflexivity | left; vm_compute; reflexivity].
  - apply (stateCellularCloudConnected_steady (env true false true true 0) c ks);
      [reflexivity | reflexivity | repeat constructor].
Defined.

(** [stateCellularWaitDisconnectedThenTryEthernet] has no timeout: as long as
    the cloud does not report disconnected the controller stays in it,
    whatever time elapses, changing and calling nothing; the first [loop()]
    call that finds the cloud disconnected goes to [stateTryEthernet], again
    without calling a collaborator. *)
Theorem stateCellularWaitDisconnected_no_timeout
    (e : Env) (c : Controller) (ks : list Call) :
  stateHandler c = ptr_stateCellularWaitDisconnectedThenTryEthernet ->
  Forall cloud_not_down ks ->
  (stateHandler (exec (run ks) c) = ptr_stateCellularWaitDisconnectedThenTryEthernet
   /\ activeInterface (exec (run ks) c) = activeInterface c
   /\ stateTime (exec (run ks) c) = stateTime c
   /\ trace (run ks) c = [])
  /\ (Particle_disconnected e = true ->
      loop e (exec (run ks) c) =
        (tt, set_stateHandler ptr_stateTryEthernet (exec (run ks) c), [])).
Proof.
  intros Hst Hup.
  destruct (run_quiet cloud_not_down
              (fun c' => stateHandler c' = ptr_stateCellularWaitDisconnectedThenTryEthernet
                         /\ activeInterface c' = activeInterface c
                         /\ stateTime c' = stateTime c)) with (ks := ks) (c := c)
    as [[H1 [H2 H3]] H4]; auto.
  - clear. intros k c' Hk [Hs [Ha Ht]].
    destruct k; try (repeat split; assumption).
    cbn in Hk. rewrite exec_call_loop, trace_call_loop, Hs.
    destruct c' as [h p t k1 k2 r t1 t2 t3 t4 col a cb]. cbn in Hs, Ha, Ht |- *.
    unfold stateCellularWaitDisconnectedThenTryEthernet. rewrite Hk. cbn. auto.
  - split; [auto|]. intros Hd. rewrite loop_handler, H1. cbn [handler].
    unfold stateCellularWaitDisconnectedThenTryEthernet. rewrite Hd. reflexivity.
Qed.

Lemma stateCellularWaitDisconnected_no_timeout_witness :
  let ks := [ Call_loop (env true false true true 6000);
              Call_loop (env true false true true 4000000000) ] in
  trace (run ks) waiting_disconnect = []
  /\ loop (env true false true false 4000000001) (exec (run ks) waiting_disconnect) =
       (tt, set_stateHandler ptr_stateTryEthernet waiting_disconnect, []).
Proof.
  intros ks.
  assert (Hks : Forall cloud_not_down ks) by (repeat constructor).
  destruct (stateCellularWaitDisconnected_no_timeout
              (env true false true false 4000000001) waiting_disconnect ks eq_refl Hks)
    as [[_ [_ [_ Ht]]] Hgo].
  split; [exact Ht | exact (Hgo eq_refl)].
Defined.

(** ** What the controller never does *)

Lemma exclusive_start (l : Links) (evs : list Event) :
  exclusive l evs = true -> both_up l = false.
Proof.
  destruct evs; cbn; intros H.
  - apply negb_true_iff. exact H.
  - apply andb_true_iff in H. apply negb_true_iff. apply H.
Qed.

Lemma exclusive_app (l : Links) (evs1 evs2 : list Event) :
  exclusive l evs1 = true ->
  exclusive (fold_left link_step evs1 l) evs2 = true ->
  exclusive l (evs1 ++ evs2) = true.
Proof.
  revert l. induction evs1 as [|ev evs1 IH]; intros l H1 H2; cbn in *.
  - exact H2.
  - apply andb_true_iff in H1. destruct H1 as [Hl H1].
    rewrite Hl. cbn. apply IH; assumption.
Qed.

Lemma exclusive_end (l : Links) (evs : list Event) :
  exclusive l evs = true -> both_up (fold_left link_step evs l) = false.
Proof.
  revert l. induction evs as [|ev evs IH]; intros l H; cbn in *.
  - apply negb_true_iff. exact H.
  - apply andb_true_iff in H. apply IH, H.
Qed.

Lemma call_exclusive (k : Call) (c : Controller) (l : Links) :
  both_up l = false -> exclusive l (trace (call k) c) = true.
Proof.
  intros Hl. destruct k;
    try (cbn; rewrite Hl; reflexivity).
  rewrite trace_call_loop.
  destruct c as [h p t k1 k2 r t1 t2 t3 t4 col a cb].
  destruct l as [[] []]; try discriminate Hl;
    destruct h, a, cb; run_handler; reflexivity.
Qed.

(** The controller never asks for both links at once: started with at most
    one of the Ethernet and cellular links up, every execution, from every
    controller state, reaches no point where [connect()] has been called on
    both without a [disconnect()] of one of them in between. *)
Theorem links_exclusive (ks : list Call) (c : Controller) (l : Links) :
  both_up l = false ->
  exclusive l (trace (run ks) c) = true.
Proof.
  revert c l. induction ks as [|k ks IH]; intros c l Hl.
  - cbn. rewrite Hl. reflexivity.
  - rewrite trace_run_cons. apply exclusive_app.
    + apply call_exclusive, Hl.
    + apply IH. apply exclusive_end. apply call_exclusive, Hl.
Qed.

Lemma links_exclusive_witness :
  exclusive (false, true) (trace (run tour) initial) = true
  /\ fold_left link_step (trace (run tour) initial) (false, true) = (false, true).
Proof.
  split; [apply (links_exclusive tour initial (false, true)); reflexivity|].
  vm_compute. reflexivity.
Defined.

Lemma call_cellular_only_quiet (k : Call) (c : Controller) :
  cellular_only c ->
  Forall (fun ev => is_ethernet_retry_command ev = false) (trace (call k) c).
Proof.
  intros [Hp Hs]. destruct k; try constructor.
  rewrite trace_call_loop.
  destruct c as [h p t k1 k2 r t1 t2 t3 t4 col a cb]. cbn in Hp, Hs. subst p.
  destruct h; try (exfalso; repeat (destruct Hs as [Hs|Hs]; [discriminate Hs|]); exact Hs);
    destruct a, cb; run_handler; repeat constructor.
Qed.

(** On a device where [stateStart] found no Ethernet hardware the controller
    never disconnects the cloud, never connects Ethernet and never disconnects
    cellular, in any execution that follows. *)
Theorem no_ethernet_never_disconnects
    (c0 : Controller) (e0 : Env) (ks : list Call) (ev : Event) :
  stateHandler c0 = ptr_stateStart ->
  ethernetPresent (exec (loop e0) c0) = false ->
  In ev (trace (loop e0) c0 ++ trace (run ks) (exec (loop e0) c0)) ->
  ev <> Particle_disconnect /\ ev <> Ethernet_connect /\ ev <> CellularOrWiFi_disconnect.
Proof.
  intros Hs Hp Hin.
  assert (Hq : is_ethernet_retry_command ev = false).
  { apply in_app_or in Hin. destruct Hin as [Hin | Hin].
    - unfold trace in Hin. rewrite loop_handler, Hs in Hin.
      destruct c0 as [h p t k1 k2 r t1 t2 t3 t4 col a cb].
      revert Hin. run_handler; intros Hin; cbn in Hin;
        repeat (destruct Hin as [<- | Hin]; [reflexivity|]); contradiction.
    - assert (Hc : cellular_only (exec (loop e0) c0))
        by (apply stateStart_cellular_only; assumption).
      destruct (run_trace_invariant cellular_only
                  (fun ev => is_ethernet_retry_command ev = false)) with (ks := ks)
                  (c := exec (loop e0) c0) as [_ Hall]; [|exact Hc|].
      + intros k c Hk. split; [apply call_cellular_only, Hk
                              |apply call_cellular_only_quiet, Hk].
      + rewrite Forall_forall in Hall. apply Hall, Hin. }
  destruct ev; try discriminate Hq; repeat split; discriminate.
Qed.

Lemma no_ethernet_never_disconnects_witness :
  Ethernet_disconnect <> Particle_disconnect
  /\ Ethernet_disconnect <> Ethernet_connect
  /\ Ethernet_disconnect <> CellularOrWiFi_disconnect.
Proof.
  apply (no_ethernet_never_disconnects initial (env false false false false 0)
           cellular_boot Ethernet_disconnect); [reflexivity | reflexivity |].
  vm_compute. auto 8.
Defined.

Lemma call_through_none (k : Call) (c : Controller) :
  interface_allowed (stateHandler c) (activeInterface c) = true ->
  Forall (fun ev => through_none ev = true) (trace (call k) c).
Proof.
  intros Hc. destruct k; try constructor.
  rewrite trace_call_loop.
  destruct c as [h p t k1 k2 r t1 t2 t3 t4 col a cb]. cbn in Hc.
  destruct h, a; try discriminate Hc; destruct cb; run_handler; repeat constructor.
Qed.

(** Along every execution from the initial controller the callback is never
    told of a direct change between ETHERNET and CELLULAR: every invocation
    goes from NONE to an interface or from an interface to NONE. *)
Theorem callback_through_none
    (ks : list Call) (cb : Callback) (o n : ActiveInterface) :
  In (InterfaceChangeCallback cb o n) (trace (run ks) initial) ->
  (o = NONE /\ n <> NONE) \/ (o <> NONE /\ n = NONE).
Proof.
  intros Hin.
  destruct (run_trace_invariant
              (fun c => interface_allowed (stateHandler c) (activeInterface c) = true)
              (fun ev => through_none ev = true)) with (ks := ks) (c := initial)
    as [_ Hall].
  - intros k c Hc. split; [apply call_interface_allowed, Hc | apply call_through_none, Hc].
  - reflexivity.
  - rewrite Forall_forall in Hall. apply Hall in Hin.
    destruct o, n; try discriminate Hin;
      (left; split; [reflexivity | discriminate])
      || (right; split; [discriminate | reflexivity]).
Qed.

Lemma callback_through_none_witness :
  (NONE = NONE /\ ETHERNET <> NONE) \/ (NONE <> NONE /\ ETHERNET = NONE).
Proof.
  apply (callback_through_none (Call_withInterfaceChangeCallback (Some 3%nat) :: tour) 3%nat).
  vm_compute. auto 12.
Defined.



(** The links are switched, and the LED theme changed, by the two Try
    handlers only: a [connect()] on Ethernet or cellular, a [disconnect()] of
    cellular, and every theme call come from [stateTryEthernet] or
    [stateTryCellular]. *)
Theorem switch_commands_provenance (e : Env) (c : Controller) (ev : Event) :
  In ev (trace (loop e) c) ->
  is_switch_command ev = true ->
  stateHandler c = ptr_stateTryEthernet \/ stateHandler c = ptr_stateTryCellular.
Proof.
  unfold trace. rewrite loop_handler.
  destruct c as [h p t k1 k2 r t1 t2 t3 t4 col a cb]. cbn [stateHandler].
  destruct h; auto; destruct a, cb; run_handler; intros Hin Hsw; cbn in Hin;
    repeat (destruct Hin as [<- | Hin]; [discriminate Hsw|]); contradiction.
Qed.

Lemma switch_commands_provenance_witness :
  stateHandler (set_stateHandler ptr_stateTryCellular initial) = ptr_stateTryEthernet
  \/ stateHandler (set_stateHandler ptr_stateTryCellular initial) = ptr_stateTryCellular.
Proof.
  apply (switch_commands_provenance (env true false false false 10)
           (set_stateHandler ptr_stateTryCellular initial) CellularOrWiFi_connect).
  - vm_compute. auto 8.
  - reflexivity.
Defined.

(** ** Configuration calls *)

(** Chained setters of different members can be written in any order, a
    second call of a setter overrides the first, and registering the callback
    commutes with every setter. *)
Theorem setters_compose
    (i j : nat) (fi fj : Field) (v w : Z) (cb : option Callback) (c : Controller) :
  nth_error fields i = Some fi ->
  nth_error fields j = Some fj ->
  (i <> j -> setter fi v (setter fj w c) = setter fj w (setter fi v c))
  /\ setter fi v (setter fi w c) = setter fi v c
  /\ withInterfaceChangeCallback cb (setter fi v c) =
       setter fi v (withInterfaceChangeCallback cb c).
Proof.
  intros Hi Hj.
  destruct i as [|[|[|[|[|[|[|[|i]]]]]]]]; cbn in Hi;
    try (destruct i; discriminate Hi); injection Hi as <-;
    (split; [|split; reflexivity]);
    destruct j as [|[|[|[|[|[|[|[|j]]]]]]]]; cbn in Hj;
    try (destruct j; discriminate Hj); injection Hj as <-;
    intros Hne; try reflexivity; exfalso; apply Hne; reflexivity.
Qed.

Lemma setters_compose_witness :
  withEthernetKeepAlive 300 (withCellularBackupColor RGB_COLOR_CYAN initial) =
    withCellularBackupColor RGB_COLOR_CYAN (withEthernetKeepAlive 300 initial)
  /\ withEthernetKeepAlive 300 (withEthernetKeepAlive 60 initial) =
       withEthernetKeepAlive 300 initial.
Proof.
  destruct (setters_compose 0 7 _ _ 300 RGB_COLOR_CYAN None initial eq_refl eq_refl)
    as [Hcomm _].
  destruct (setters_compose 0 0 _ _ 300 60 None initial eq_refl eq_refl) as [_ [Hover _]].
  split; [apply Hcomm; discriminate | exact Hover].
Defined.

(** Registering a callback replaces the one registered before: after
    [withInterfaceChangeCallback(cb)] a [loop()] call invokes no callback but
    [cb], and none at all when [cb] is empty. *)
Theorem callback_replaced
    (e : Env) (c : Controller) (cb : option Callback) (cb' : Callback)
    (o n : ActiveInterface) :
  In (InterfaceChangeCallback cb' o n)
     (trace (loop e) (withInterfaceChangeCallback cb c)) ->
  cb = Some cb' /\ o = activeInterface c
  /\ n = activeInterface (exec (loop e) (withInterfaceChangeCallback cb c)).
Proof.
  unfold exec, trace. rewrite loop_handler.
  destruct c as [h p t k1 k2 r t1 t2 t3 t4 col a cb0]. cbn [stateHandler].
  destruct h, a, cb; run_handler; intros Hin; cbn in Hin;
    repeat (destruct Hin as [Hin|Hin];
            [discriminate Hin || (injection Hin as <- <- <-)|]);
    try contradiction; auto.
Qed.

Lemma callback_replaced_witness :
  Some 2%nat = Some 2%nat /\ CELLULAR = activeInterface on_cellular
  /\ NONE = activeInterface
              (exec (loop (env true false true true 305000))
                    (withInterfaceChangeCallback (Some 2%nat) on_cellular)).
Proof.
  apply (callback_replaced (env true false true true 305000) on_cellular (Some 2%nat) 2%nat).
  vm_compute. auto.
Defined.

(** ** Timeouts out of range *)

(** The elapsed time is a 32-bit value compared with a 64-bit timeout: a
    timeout of 2^32 ms or more never expires, so the waiting state is left
    only on the collaborator's answer and [stateCellularCloudConnected] never
    retries Ethernet; a timeout of zero or less has expired at the first
    [loop()] call. *)
Theorem timeout_out_of_range (e : Env) (c : Controller) (timeout : Z) :
  (2 ^ 32 <= timeout -> timedOut (millis e) (stateTime c) timeout = false)
  /\ (timeout <= 0 -> timedOut (millis e) (stateTime c) timeout = true)
  /\ (2 ^ 32 <= ethernetConnectTimeout c ->
      stateHandler c = ptr_stateWaitEthernetReady -> Ethernet_ready e = false ->
      loop e c = (tt, c, []))
  /\ (2 ^ 32 <= ethernetCloudConnectTimeout c ->
      stateHandler c = ptr_stateWaitEthernetCloud -> Particle_connected e = false ->
      loop e c = (tt, c, []))
  /\ (2 ^ 32 <= cellularConnectTimeout c ->
      stateHandler c = ptr_stateWaitCellularReady -> CellularOrWiFi_ready e = false ->
      loop e c = (tt, c, []))
  /\ (2 ^ 32 <= cellularCloudConnectTimeout c ->
      stateHandler c = ptr_stateWaitCellularCloud -> Particle_connected e = false ->
      loop e c = (tt, c, []))
  /\ (2 ^ 32 <= retryEthernetPeriod c ->
      stateHandler c = ptr_stateCellularCloudConnected -> Particle_connected e = true ->
      loop e c = (tt, c, []))
  /\ (ethernetConnectTimeout c <= 0 ->
      stateHandler c = ptr_stateWaitEthernetReady -> Ethernet_ready e = false ->
      stateHandler (exec (loop e) c) = ptr_stateTryCellular)
  /\ (ethernetCloudConnectTimeout c <= 0 ->
      stateHandler c = ptr_stateWaitEthernetCloud -> Particle_connected e = false ->
      stateHandler (exec (loop e) c) = ptr_stateTryCellular)
  /\ (cellularConnectTimeout c <= 0 -> ethernetPresent c = true ->
      stateHandler c = ptr_stateWaitCellularReady -> CellularOrWiFi_ready e = false ->
      stateHandler (exec (loop e) c) = ptr_stateTryEthernet)
  /\ (cellularCloudConnectTimeout c <= 0 -> ethernetPresent c = true ->
      stateHandler c = ptr_stateWaitCellularCloud -> Particle_connected e = false ->
      stateHandler (exec (loop e) c) = ptr_stateTryEthernet)
  /\ (retryEthernetPeriod c <= 0 -> ethernetPresent c = true ->
      stateHandler c = ptr_stateCellularCloudConnected -> Particle_connected e = true ->
      stateHandler (exec (loop e) c) = ptr_stateCellularWaitDisconnectedThenTryEthernet).
Proof.
  assert (Hnever : forall now st t, 2 ^ 32 <= t -> timedOut now st t = false).
  { intros now st t Ht. apply timedOut_false. unfold elapsed.
    pose proof (uint32_range (now - st)). lia. }
  assert (Hnow : forall now st t, t <= 0 -> timedOut now st t = true).
  { intros now st t Ht. apply timedOut_true. unfold elapsed.
    pose proof (uint32_range (now - st)). lia. }
  split; [apply Hnever|]. split; [apply Hnow|].
  unfold exec. rewrite loop_handler.
  destruct c as [h p t k1 k2 r t1 t2 t3 t4 col a cb]. cbn.
  repeat split.
  1-5: intros Ht -> Hr.
  6-7: intros Ht -> Hr.
  8-10: intros Ht -> -> Hr.
  all: cbn [handler];
    unfold stateWaitEthernetReady, stateWaitEthernetCloud, stateWaitCellularReady,
      stateWaitCellularCloud, stateCellularCloudConnected;
    rewrite Hr; open_handlers; cbn;
    (rewrite (Hnever _ _ _ Ht) || rewrite (Hnow _ _ _ Ht));
    try reflexivity; destruct a, cb; reflexivity.
Qed.

Lemma timeout_out_of_range_witness :
  (* a retry period of 50 days: no retry of Ethernet after 49 days *)
  loop (env true false true true 4233600000)
       (withRetryEthernetPeriod 4320000000 on_cellular)
  = (tt, withRetryEthernetPeriod 4320000000 on_cellular, [])
  (* an Ethernet timeout of zero: cellular is tried at once *)
  /\ stateHandler (exec (loop (env true false false false 1000))
                        (withEthernetConnectTimeout 0 waiting_ethernet_ready))
     = ptr_stateTryCellular.
Proof.
  destruct (timeout_out_of_range (env true false true true 4233600000)
              (withRetryEthernetPeriod 4320000000 on_cellular) 0)
    as [_ [_ [_ [_ [_ [_ [Hretry _]]]]]]].
  destruct (timeout_out_of_range (env true false false false 1000)
              (withEthernetConnectTimeout 0 waiting_ethernet_ready) 0)
    as [_ [_ [_ [_ [_ [_ [_ [Hzero _]]]]]]]].
  split.
  - apply Hretry; [vm_compute; discriminate | reflexivity | reflexivity].
  - apply Hzero; [vm_compute; discriminate | reflexivity | reflexivity].
Defined.

(** ** Sequences of transitions *)

(** Three [loop()] calls in a row. *)
Lemma exec_three_loops (e0 e1 e2 : Env) (c : Controller) :
  exec (run [Call_loop e0; Call_loop e1; Call_loop e2]) c =
    exec (loop e2) (exec (loop e1) (exec (loop e0) c)).
Proof. rewrite !exec_run_cons. reflexivity. Qed.

(** Becoming link-ready does not restart the clock: the time the cloud has
    to connect is counted from the run of the Try handler.  Started in
    [stateTryEthernet] at [e0], with Ethernet ready at [e1] and the cloud not
    connected at [e2], the controller gives Ethernet up as soon as
    [ethernetCloudConnectTimeout] has elapsed since [e0]; started in
    [stateTryCellular], likewise with [cellularCloudConnectTimeout], when
    Ethernet is present. *)
Theorem cloud_timeout_counts_from_try (e0 e1 e2 : Env) (c : Controller) :
  0 <= uptime e2 - uptime e0 < 2 ^ 32 ->
  Particle_connected e2 = false ->
  let d := uptime e2 - uptime e0 in
  let c' := exec (run [Call_loop e0; Call_loop e1; Call_loop e2]) c in
  (stateHandler c = ptr_stateTryEthernet -> Ethernet_ready e1 = true ->
   stateHandler c' =
     if ethernetCloudConnectTimeout c <=? d then ptr_stateTryCellular
     else ptr_stateWaitEthernetCloud)
  /\ (stateHandler c = ptr_stateTryCellular -> CellularOrWiFi_ready e1 = true ->
      stateHandler c' =
        if (cellularCloudConnectTimeout c <=? d) && ethernetPresent c
        then ptr_stateTryEthernet
        else ptr_stateWaitCellularCloud).
Proof.
  intros Hlt Hc d c'. subst c'. rewrite exec_three_loops.
  assert (Hto : forall t, timedOut (millis e2) (millis e0) t = (t <=? d)).
  { intros t. unfold timedOut, millis. rewrite (elapsed_uptime _ _ Hlt). reflexivity. }
  unfold exec. rewrite !loop_handler.
  destruct c as [h p t k1 k2 r t1 t2 t3 t4 col a cb]. cbn [stateHandler].
  split; intros -> Hr.
  - destruct a, cb; open_handlers; cbn; rewrite Hr; cbn; rewrite Hc; cbn;
      rewrite Hto; destruct (t4 <=? d); reflexivity.
  - destruct a, cb; open_handlers; cbn; destruct (col =? RGB_COLOR_CYAN); cbn;
      rewrite Hr; cbn; rewrite Hc; cbn; rewrite Hto;
      destruct (t2 <=? d), p; reflexivity.
Qed.

Lemma cloud_timeout_counts_from_try_witness :
  (* link ready after 29 s, cloud not connected 1 s later: given up *)
  stateHandler
    (exec (run [ Call_loop (env true false false false 1000);
                 Call_loop (env true true false false 30000);
                 Call_loop (env true true false false 31000) ])
          (set_stateHandler ptr_stateTryEthernet initial))
  = ptr_stateTryCellular.
Proof.
  destruct (cloud_timeout_counts_from_try
              (env true false false false 1000) (env true true false false 30000)
              (env true true false false 31000)
              (set_stateHandler ptr_stateTryEthernet initial)) as [H _].
  - vm_compute. split; [discriminate | reflexivity].
  - reflexivity.
  - exact (H eq_refl eq_refl).
Defined.

(** A cloud connection lost and found again on Ethernet is not reported to
    the callback: from [stateEthernetCloudConnected] with [activeInterface]
    ETHERNET, a [loop()] call that finds the cloud down and a later one that
    finds it up again bring the controller back with only [stateTime]
    changed, set the keep-alive again (the count of [ethernetKeepAlive] as an
    [unsigned]) and invoke no callback; if instead the
    cloud is still down at the later call, Ethernet is given up exactly when
    [ethernetCloudConnectTimeout] has elapsed since the call that found the
    cloud down. *)
Theorem ethernet_cloud_drop_recovery (e1 e2 : Env) (c : Controller) :
  stateHandler c = ptr_stateEthernetCloudConnected ->
  activeInterface c = ETHERNET ->
  Particle_connected e1 = false ->
  0 <= uptime e2 - uptime e1 < 2 ^ 32 ->
  let c1 := exec (loop e1) c in
  (Particle_connected e2 = true ->
   exec (loop e2) c1 = set_stateTime (millis e2) c
   /\ trace (loop e2) c1 =
        [Log_info "Cloud connected over Ethernet keepAlive=%d" [int32 (ethernetKeepAlive c)];
         Particle_keepAlive (uint32 (ethernetKeepAlive c))]
   /\ callbacks (trace (loop e1) c ++ trace (loop e2) c1) = [])
  /\ (Particle_connected e2 = false ->
      stateHandler (exec (loop e2) c1) =
        if ethernetCloudConnectTimeout c <=? uptime e2 - uptime e1
        then ptr_stateTryCellular else ptr_stateWaitEthernetCloud).
Proof.
  intros Hs Ha Hd Hlt c1. subst c1.
  assert (Hto : forall t, timedOut (millis e2) (millis e1) t = (t <=? uptime e2 - uptime e1)).
  { intros t. unfold timedOut, millis. rewrite (elapsed_uptime _ _ Hlt). reflexivity. }
  unfold exec, trace. rewrite !loop_handler.
  destruct c as [h p t k1 k2 r t1 t2 t3 t4 col a cb]. cbn in Hs, Ha |- *. subst h a.
  cbn [handler]. unfold stateEthernetCloudConnected. rewrite Hd.
  open_handlers. cbn.
  unfold stateWaitEthernetCloud. split; intros Hc; rewrite Hc.
  - open_handlers. cbn. destruct cb; repeat split; reflexivity.
  - open_handlers. cbn. rewrite Hto. destruct (t4 <=? uptime e2 - uptime e1); reflexivity.
Qed.

Lemma ethernet_cloud_drop_recovery_witness :
  let c1 := exec (loop (env true true false false 60000)) on_ethernet in
  exec (loop (env true true false true 75000)) c1 = set_stateTime 75000 on_ethernet
  /\ callbacks (trace (loop (env true true false false 60000)) on_ethernet
                ++ trace (loop (env true true false true 75000)) c1) = []
  /\ stateHandler (exec (loop (env true true false false 89999)) c1)
     = ptr_stateWaitEthernetCloud
  /\ stateHandler (exec (loop (env true true false false 90000)) c1)
     = ptr_stateTryCellular.
Proof.
  intros c1.
  destruct (ethernet_cloud_drop_recovery (env true true false false 60000)
              (env true true false true 75000) on_ethernet)
    as [Hup _]; [reflexivity | reflexivity | reflexivity
                 | vm_compute; split; [discriminate | reflexivity] |].
  destruct (ethernet_cloud_drop_recovery (env true true false false 60000)
              (env true true false false 89999) on_ethernet)
    as [_ Hwait]; [reflexivity | reflexivity | reflexivity
                   | vm_compute; split; [discriminate | reflexivity] |].
  destruct (ethernet_cloud_drop_recovery (env true true false false 60000)
              (env true true false false 90000) on_ethernet)
    as [_ Hgo]; [reflexivity | reflexivity | reflexivity
                 | vm_compute; split; [discriminate | reflexivity] |].
  destruct (Hup eq_refl) as [H1 [_ H3]].
  split; [exact H1|]. split; [exact H3|].
  split; [exact (Hwait eq_refl) | exact (Hgo eq_refl)].
Defined.

(** The same on cellular: a cloud connection lost and found again brings the
    controller back to [stateCellularCloudConnected] with [stateTime] set to
    the time of the reconnection, so the retry period for Ethernet starts
    again, sets the keep-alive again (the count of [cellularKeepAlive] as an
    [unsigned]) and invokes no callback; while the cloud stays down the
    controller goes back to Ethernet exactly when
    [cellularCloudConnectTimeout] has elapsed since the loss and Ethernet is
    present. *)
Theorem cellular_cloud_drop_recovery (e1 e2 : Env) (c : Controller) :
  stateHandler c = ptr_stateCellularCloudConnected ->
  activeInterface c = CELLULAR ->
  Particle_connected e1 = false ->
  0 <= uptime e2 - uptime e1 < 2 ^ 32 ->
  let c1 := exec (loop e1) c in
  (Particle_connected e2 = true ->
   exec (loop e2) c1 = set_stateTime (millis e2) c
   /\ trace (loop e2) c1 =
        [Log_info "Cloud connected over cellular keepAlive=%d" [int32 (cellularKeepAlive c)];
         Particle_keepAlive (uint32 (cellularKeepAlive c))]
   /\ callbacks (trace (loop e1) c ++ trace (loop e2) c1) = [])
  /\ (Particle_connected e2 = false ->
      stateHandler (exec (loop e2) c1) =
        if (cellularCloudConnectTimeout c <=? uptime e2 - uptime e1) && ethernetPresent c
        then ptr_stateTryEthernet else ptr_stateWaitCellularCloud).
Proof.
  intros Hs Ha Hd Hlt c1. subst c1.
  assert (Hto : forall t, timedOut (millis e2) (millis e1) t = (t <=? uptime e2 - uptime e1)).
  { intros t. unfold timedOut, millis. rewrite (elapsed_uptime _ _ Hlt). reflexivity. }
  unfold exec, trace. rewrite !loop_handler.
  destruct c as [h p t k1 k2 r t1 t2 t3 t4 col a cb]. cbn in Hs, Ha |- *. subst h a.
  cbn [handler]. unfold stateCellularCloudConnected. rewrite Hd.
  open_handlers. cbn.
  unfold stateWaitCellularCloud. split; intros Hc; rewrite Hc.
  - open_handlers. cbn. destruct cb; repeat split; reflexivity.
  - open_handlers. cbn. rewrite Hto.
    destruct (t2 <=? uptime e2 - uptime e1), p; reflexivity.
Qed.

Lemma cellular_cloud_drop_recovery_witness :
  let c1 := exec (loop (env true false true false 60000)) on_cellular in
  exec (loop (env true false true true 75000)) c1 = set_stateTime 75000 on_cellular
  /\ stateHandler (exec (loop (env true false true false 180000)) c1)
     = ptr_stateTryEthernet.
Proof.
  intros c1.
  destruct (cellular_cloud_drop_recovery (env true false true false 60000)
              (env true false true true 75000) on_cellular)
    as [Hup _]; [reflexivity | reflexivity | reflexivity
                 | vm_compute; split; [discriminate | reflexivity] |].
  destruct (cellular_cloud_drop_recovery (env true false true false 60000)
              (env true false true false 180000) on_cellular)
    as [_ Hgo]; [reflexivity | reflexivity | reflexivity
                 | vm_compute; split; [discriminate | reflexivity] |].
  split; [exact (proj1 (Hup eq_refl)) | exact (Hgo eq_refl)].
Defined.

(** Four [loop()] calls in a row. *)
Lemma run_four_loops (e0 e1 e2 e3 : Env) (c : Controller) :
  let c1 := exec (loop e0) c in
  let c2 := exec (loop e1) c1 in
  let c3 := exec (loop e2) c2 in
  exec (run [Call_loop e0; Call_loop e1; Call_loop e2; Call_loop e3]) c = exec (loop e3) c3
  /\ trace (run [Call_loop e0; Call_loop e1; Call_loop e2; Call_loop e3]) c =
       trace (loop e0) c ++ trace (loop e1) c1 ++ trace (loop e2) c2 ++ trace (loop e3) c3.
Proof.
  cbv zeta. rewrite !exec_run_cons, !trace_run_cons. cbn [call run].
  rewrite app_nil_r. split; reflexivity.
Qed.

(** The shortest way to the cloud takes four [loop()] calls, whatever the
    configured timeouts and the time between the calls.  From [stateStart]:
    when the adapter answers at the first call, Ethernet is ready at the
    third and the cloud connected at the fourth, the controller is in
    [stateEthernetCloudConnected] with [activeInterface] ETHERNET, having
    disconnected cellular, connected Ethernet, connected the cloud and set
    the keep-alive to the count of [ethernetKeepAlive] as an [unsigned], in
    this order; when no adapter answers and
    [ethernetPresent] was not set, the same holds for cellular, with
    Ethernet disconnected first. *)
Theorem boot_to_cloud (e0 e1 e2 e3 : Env) (c : Controller) :
  stateHandler c = ptr_stateStart ->
  Particle_connected e3 = true ->
  let ks := [Call_loop e0; Call_loop e1; Call_loop e2; Call_loop e3] in
  (has_mac e0 = true -> Ethernet_ready e2 = true ->
   stateHandler (exec (run ks) c) = ptr_stateEthernetCloudConnected
   /\ activeInterface (exec (run ks) c) = ETHERNET
   /\ stateTime (exec (run ks) c) = millis e3
   /\ filter is_link_command (trace (run ks) c) =
        [CellularOrWiFi_disconnect; Ethernet_connect; Particle_connect;
         Particle_keepAlive (uint32 (ethernetKeepAlive c))])
  /\ (has_mac e0 = false -> ethernetPresent c = false -> CellularOrWiFi_ready e2 = true ->
      stateHandler (exec (run ks) c) = ptr_stateCellularCloudConnected
      /\ activeInterface (exec (run ks) c) = CELLULAR
      /\ stateTime (exec (run ks) c) = millis e3
      /\ filter is_link_command (trace (run ks) c) =
           [Ethernet_disconnect; CellularOrWiFi_connect; Particle_connect;
            Particle_keepAlive (uint32 (cellularKeepAlive c))]).
Proof.
  intros Hs Hc ks. subst ks.
  destruct (run_four_loops e0 e1 e2 e3 c) as [Hx Ht]. rewrite Hx, Ht. clear Hx Ht.
  unfold exec, trace, has_mac. rewrite !loop_handler.
  destruct c as [h p t k1 k2 r t1 t2 t3 t4 col a cb]. cbn in Hs |- *. subst h.
  cbn [handler]. unfold stateStart.
  destruct (System_featureEnabled_ETHERNET_DETECTION e0);
    (split; [intros Hm Hr | intros Hm -> Hr]);
    destruct (Ethernet_macAddress e0); try discriminate Hm;
    destruct a, cb; open_handlers; cbn;
    try (destruct (col =? RGB_COLOR_CYAN); cbn);
    rewrite Hr; cbn; rewrite Hc; cbn; repeat split; reflexivity.
Qed.

Lemma boot_to_cloud_witness :
  filter is_link_command (trace (run (firstn 4 tour)) initial) =
    [CellularOrWiFi_disconnect; Ethernet_connect; Particle_connect; Particle_keepAlive 25]
  /\ stateHandler
       (exec (run (map Call_loop
                     [ env false false false false 0; env false false false false 10;
                       env false false true false 5000; env false false true true 9000 ]))
             initial)
     = ptr_stateCellularCloudConnected.
Proof.
  destruct (boot_to_cloud (env true false false false 0) (env true false false false 10)
              (env true true false false 2000) (env true true false true 3000)
              initial eq_refl eq_refl) as [Heth _].
  destruct (boot_to_cloud (env false false false false 0) (env false false false false 10)
              (env false false true false 5000) (env false false true true 9000)
              initial eq_refl eq_refl) as [_ Hcell].
  split.
  - exact (proj2 (proj2 (proj2 (Heth eq_refl eq_refl)))).
  - exact (proj1 (Hcell eq_refl eq_refl eq_refl)).
Defined.

(** ** The singleton *)

Lemma application_allocated (ks : list Call) (c : Controller) :
  application ks (Some c) = (Some (exec (run ks) c), trace (run ks) c).
Proof.
  revert c. induction ks as [|k ks IH]; intros c.
  - reflexivity.
  - rewrite exec_run_cons, trace_run_cons. cbn [application].
    unfold on_instance, instance, exec, trace.
    destruct (call k c) as [[u c'] evs]. cbn [fst snd].
    rewrite IH. reflexivity.
Qed.

(** [instance()] allocates the object once, default-constructed, and returns
    that same object ever after: a program that makes all its calls through
    [instance()], starting with the null pointer of boot, behaves as the
    sequence of these calls on one default-constructed controller, whose
    configuration and state are kept from call to call. *)
Theorem instance_singleton (s : Static) (k : Call) (ks : list Call) :
  snd (instance s) = Some (fst (instance s))
  /\ instance (snd (instance s)) = instance s
  /\ application (k :: ks) s =
       (Some (exec (run (k :: ks)) (fst (instance s))),
        trace (run (k :: ks)) (fst (instance s)))
  /\ application (k :: ks) None =
       (Some (exec (run (k :: ks)) initial), trace (run (k :: ks)) initial).
Proof.
  assert (H : forall s', application (k :: ks) s' =
                (Some (exec (run (k :: ks)) (fst (instance s'))),
                 trace (run (k :: ks)) (fst (instance s')))).
  { intros s'. rewrite exec_run_cons, trace_run_cons. cbn [application].
    unfold on_instance, exec, trace.
    destruct (instance s') as [c s1]. cbn [fst].
    destruct (call k c) as [[u c'] evs]. cbn [fst snd].
    rewrite application_allocated. reflexivity. }
  split; [destruct s; reflexivity|]. split; [destruct s; reflexivity|].
  split; [apply H | apply (H None)].
Qed.

(** ** Following the active interface through the callback *)

Lemma call_track (k : Call) (c : Controller) (cb : Callback) :
  interfaceChangeCallback c = Some cb ->
  keeps_callback k ->
  interfaceChangeCallback (exec (call k) c) = Some cb
  /\ fold_left track (trace (call k) c) (activeInterface c) =
       activeInterface (exec (call k) c).
Proof.
  intros Hcb Hk. destruct k; try (split; [exact Hcb | reflexivity]).
  - rewrite exec_call_loop, trace_call_loop.
    destruct c as [h p t k1 k2 r t1 t2 t3 t4 col a cb0]. cbn in Hcb. subst cb0.
    destruct h, a; run_handler; split; reflexivity.
  - contradiction.
Qed.

(** An application that registers a callback and keeps it can follow the
    active interface through the callback alone: after every execution the
    new interface of the last invocation (or, without an invocation, the
    interface at the start) is what [getActiveInterface()] returns. *)
Theorem callback_tracks_activeInterface
    (ks : list Call) (c : Controller) (cb : Callback) :
  interfaceChangeCallback c = Some cb ->
  Forall keeps_callback ks ->
  fold_left track (trace (run ks) c) (activeInterface c) =
    getActiveInterface (exec (run ks) c).
Proof.
  unfold getActiveInterface. revert c.
  induction ks as [|k ks IH]; intros c Hcb Hks.
  - reflexivity.
  - rewrite exec_run_cons, trace_run_cons, fold_left_app.
    destruct (call_track k c cb Hcb (Forall_inv Hks)) as [Hcb' Htr].
    rewrite Htr. apply IH; [exact Hcb' | exact (Forall_inv_tail Hks)].
Qed.

Lemma callback_tracks_activeInterface_witness :
  fold_left track (trace (run tour) (withInterfaceChangeCallback (Some 3%nat) initial)) NONE
  = NONE
  /\ callbacks (trace (run tour) (withInterfaceChangeCallback (Some 3%nat) initial)) =
       [(3%nat, NONE, ETHERNET); (3%nat, ETHERNET, NONE);
        (3%nat, NONE, CELLULAR); (3%nat, CELLULAR, NONE)].
Proof.
  split.
  - assert (Hks : Forall keeps_callback tour) by (repeat constructor).
    exact (callback_tracks_activeInterface tour
             (withInterfaceChangeCallback (Some 3%nat) initial) 3%nat eq_refl Hks).
  - vm_compute. reflexivity.
Defined.
